(** * AttendifyMe: the attendance engine of [attendifyme.py]

    A shallow embedding of the core of [ModernAttendanceSystem]: the lecture
    resolver ([get_current_lecture]), the in-memory student directory
    ([students_data]) with its loaders ([setup_student_data],
    [update_attendance_from_sheet]), the marking operation
    ([mark_attendance]) and the matching loop of
    [process_face_recognition].  Rendering, camera handling and event
    dispatch are left out. *)

From Stdlib Require Import ZArith String Ascii List Bool Arith Lia.
From Stdlib Require Import DecimalString Floats.
From stdpp Require Import gmap strings list.

Local Open Scope nat_scope.

(** ** Python strings *)

Module PyStr.

(** Code point of a character; the model covers ASCII text. *)
Definition ord (c : ascii) : nat := nat_of_ascii c.

(** [a < b], [a == b], [a > b] on [str]: lexicographic on code points, a
    proper prefix being smaller. *)
Fixpoint compare (a b : string) : comparison :=
  match a, b with
  | EmptyString, EmptyString => Eq
  | EmptyString, String _ _ => Lt
  | String _ _, EmptyString => Gt
  | String c a', String d b' =>
      match Nat.compare (ord c) (ord d) with
      | Eq => compare a' b'
      | Lt => Lt
      | Gt => Gt
      end
  end.

(** [a <= b] *)
Definition le (a b : string) : bool :=
  match compare a b with
  | Gt => false
  | _ => true
  end.

(** [c.isspace()] for an ASCII character: TAB, LF, VT, FF, CR, the four
    separators FS, GS, RS, US, and the space. *)
Definition isspace (c : ascii) : bool :=
  let n := ord c in
  ((9 <=? n) && (n <=? 13)) || ((28 <=? n) && (n <=? 32)).

Fixpoint lstrip (s : string) : string :=
  match s with
  | EmptyString => EmptyString
  | String c s' => if isspace c then lstrip s' else s
  end.

Fixpoint rev_onto (s acc : string) : string :=
  match s with
  | EmptyString => acc
  | String c s' => rev_onto s' (String c acc)
  end.

Definition rev (s : string) : string := rev_onto s EmptyString.

Definition rstrip (s : string) : string := rev (lstrip (rev s)).

(** [s.strip()] *)
Definition strip (s : string) : string := rstrip (lstrip s).

(** The decimal digit [d] (for [d < 10]). *)
Definition digit (d : nat) : ascii := ascii_of_nat (48 + d).

(** [str(n)] for an [int]. *)
Definition of_int (n : Z) : string := NilZero.string_of_int (Z.to_int n).

End PyStr.

(** ** The clock *)

(** What [datetime.now()] contributes: [strftime("%H:%M")] reads the hour and
    the minute only. *)
Record datetime := { hour : nat; minute : nat }.

Definition valid_time (t : datetime) : Prop := hour t < 24 ∧ minute t < 60.

(** [%H] and [%M]: two digits, zero padded. *)
Definition two_digits (n : nat) : string :=
  String (PyStr.digit (n / 10)) (String (PyStr.digit (n mod 10)) EmptyString).

(** [t.strftime("%H:%M")] *)
Definition strftime_HM (t : datetime) : string :=
  two_digits (hour t) +:+ ":" +:+ two_digits (minute t).

Global Arguments strftime_HM : simpl never.
Global Arguments two_digits : simpl never.

(** Minutes since midnight: the time of day as a number. *)
Definition minutes_of_day (t : datetime) : nat := hour t * 60 + minute t.

(** ** [get_current_lecture] *)

(** The [lectures] dict, in insertion order, which is the order a [for] over
    [lectures.items()] visits. *)
Definition lectures : list (string * (string * string)) :=
  [ ("Lecture1", ("08:00", "09:00"));
    ("Lecture2", ("09:10", "10:10"));
    ("Lecture3", ("10:20", "11:20"));
    ("Lecture4", ("11:30", "12:30"));
    ("Lecture5", ("14:00", "15:00"));
    ("Lecture6", ("15:10", "16:10"));
    ("Lecture7", ("16:20", "17:20"));
    ("Lecture8", ("17:30", "23:30")) ].

(** The loop [for lecture, (start, end) in items: if start <= now <= end:
    return lecture], falling through to [return None]. *)
Fixpoint first_lecture (items : list (string * (string * string)))
    (now : string) : option string :=
  match items with
  | [] => None
  | (lecture, (start, end_)) :: rest =>
      if PyStr.le start now && PyStr.le now end_ then Some lecture
      else first_lecture rest now
  end.

Definition get_current_lecture (clock : datetime) : option string :=
  let now := strftime_HM clock in
  first_lecture lectures now.

(** ** A resolver over numeric times of day

    The same schedule with its windows as clock times, and the resolver the
    specification describes: first window, in configured order, with
    [start <= now <= end] as numbers. *)

Definition at_time (h m : nat) : datetime := {| hour := h; minute := m |}.

Definition lecture_times : list (string * (datetime * datetime)) :=
  [ ("Lecture1", (at_time 8 0, at_time 9 0));
    ("Lecture2", (at_time 9 10, at_time 10 10));
    ("Lecture3", (at_time 10 20, at_time 11 20));
    ("Lecture4", (at_time 11 30, at_time 12 30));
    ("Lecture5", (at_time 14 0, at_time 15 0));
    ("Lecture6", (at_time 15 10, at_time 16 10));
    ("Lecture7", (at_time 16 20, at_time 17 20));
    ("Lecture8", (at_time 17 30, at_time 23 30)) ].

Definition in_window (w : datetime * datetime) (now : datetime) : bool :=
  (minutes_of_day (fst w) <=? minutes_of_day now)
  && (minutes_of_day now <=? minutes_of_day (snd w)).

Fixpoint first_window (items : list (string * (datetime * datetime)))
    (now : datetime) : option string :=
  match items with
  | [] => None
  | (session, w) :: rest =>
      if in_window w now then Some session else first_window rest now
  end.

Definition current_session_numeric (now : datetime) : option string :=
  first_window lecture_times now.

(** ** Values, exceptions and results *)

(** A cell value as [get_all_records] hands it over: text, or an [int] where
    the cell reads as a number. *)
Inductive value :=
  | VStr (s : string)
  | VInt (n : Z).

Global Instance value_eq_dec : EqDecision value.
Proof. solve_decision. Defined.

(** [str(v)] *)
Definition py_str (v : value) : string :=
  match v with
  | VStr s => s
  | VInt n => PyStr.of_int n
  end.

(** [v == 'Present'] *)
Definition is_present (v : value) : bool :=
  match v with
  | VStr s => String.eqb s "Present"
  | VInt _ => false
  end.

(** The exceptions that occur. [LibraryError] stands for whatever a library
    call raises (an API or transport error of the sheet client, a shape error
    of the numeric library). *)
Inductive exn :=
  | KeyError (key : string)
  | AttributeError (what : string)
  | IndexError
  | LibraryError (what : string).

(** [str(e)] *)
Definition exn_str (e : exn) : string :=
  match e with
  | KeyError k => "'" +:+ k +:+ "'"
  | AttributeError w => w
  | IndexError => "list index out of range"
  | LibraryError w => w
  end.

Inductive result (A : Type) :=
  | Ok (a : A)
  | Raise (e : exn).
Global Arguments Ok {A} a.
Global Arguments Raise {A} e.

(** ** The student directory *)

(** One row of [get_all_records()]: a dict from column header to value. *)
Abbreviation record := (gmap string value).

(** [{'name': ..., 'attendance': {...}}] *)
Record student := { name : value; attendance : gmap string value }.

(** [self.students_data]: PRN to student. *)
Abbreviation roster := (gmap string student).

(** [f'Lecture{i}'] *)
Definition lecture_key (i : nat) : string :=
  "Lecture" +:+ PyStr.of_int (Z.of_nat i).

(** [range(1, 9)] *)
Definition lecture_range : list nat := seq 1 8.

(** [{f'Lecture{i}': 'Absent' for i in range(1, 9)}] *)
Definition absent_attendance (_ : record) : gmap string value :=
  foldl (λ d i, <[lecture_key i := VStr "Absent"]> d) ∅ lecture_range.

(** [{f'Lecture{i}': record.get(f'Lecture{i}', 'Absent') for i in range(1, 9)}] *)
Definition sheet_attendance (r : record) : gmap string value :=
  foldl (λ d i, <[lecture_key i := default (VStr "Absent") (r !! lecture_key i)]> d)
        ∅ lecture_range.

(** The [for record in records] loop shared by both loaders: [mk] builds the
    attendance dict.  A missing ['PRN'] or ['RName'] raises [KeyError] and
    leaves the dict as filled so far. *)
Fixpoint load_records (mk : record → gmap string value) (records : list record)
    (data : roster) : roster * option exn :=
  match records with
  | [] => (data, None)
  | r :: rest =>
      match r !! "PRN" with
      | None => (data, Some (KeyError "PRN"))
      | Some p =>
          let prn := py_str p in
          match r !! "RName" with
          | None => (data, Some (KeyError "RName"))
          | Some nm =>
              load_records mk rest
                (<[prn := {| name := nm; attendance := mk r |}]> data)
          end
      end
  end.

(** ** The worksheet and the face library: external collaborators *)

(** A [gspread] cell reference: 1-based row and column. *)
Record cell := { row : nat; col : nat }.

(** The three worksheet calls the application makes.  Each may raise, and
    each may change the state of the remote sheet. *)
Class Worksheet (S : Type) := {
  ws_get_all_records : S → result (list record) * S;
  ws_find : string → S → result (option cell) * S;
  ws_update_cell : nat → nat → string → S → result unit * S
}.

(** [face_recognition.face_distance([known], probe)[0]]: a float, or an
    exception for vectors the numeric library cannot subtract. *)
Class FaceLib (E : Type) := {
  face_distance : E → E → result float
}.

(** [face_recognition.compare_faces(known, probe, tolerance)], which is
    [list(face_distance(known, probe) <= tolerance)]. *)
Fixpoint compare_faces `{FaceLib E} (known : list E) (probe : E)
    (tolerance : float) : result (list bool) :=
  match known with
  | [] => Ok []
  | k :: rest =>
      match face_distance k probe with
      | Raise e => Raise e
      | Ok d =>
          match compare_faces rest probe tolerance with
          | Raise e => Raise e
          | Ok bs => Ok (PrimFloat.leb d tolerance :: bs)
          end
      end
  end.

(** ** Application state *)

Inductive colour := ColSuccess | ColError | ColText.

(** [self.message] *)
Record message := { text : string; color : colour; timer : nat }.

(** The calls made to the worksheet, each with whether it returned, and the
    in-place attendance updates, in the order they happen.  The application
    keeps no such log; it is kept here to state what is written and when. *)
Inductive event :=
  | CallGetAllRecords (ok : bool)
  | CallFind (query : string) (ok : bool)
  | CallUpdateCell (r c : nat) (v : string) (ok : bool)
  | SetAttendance (prn lecture : string).

Global Instance event_eq_dec : EqDecision event.
Proof. solve_decision. Defined.

Definition is_ok {A} (r : result A) : bool :=
  match r with Ok _ => true | Raise _ => false end.

Record system (S E : Type) := {
  sheet : S;
  students_data : roster;
  face_encodings : list (string * E);
  face_recognition_active : bool;
  msg : message;
  history : list event
}.
Global Arguments sheet {S E} _.
Global Arguments students_data {S E} _.
Global Arguments face_encodings {S E} _.
Global Arguments face_recognition_active {S E} _.
Global Arguments msg {S E} _.
Global Arguments history {S E} _.

Section Setters.
Context {S E : Type}.
Implicit Type st : system S E.

Definition with_sheet st (s : S) (ev : event) : system S E :=
  {| sheet := s; students_data := students_data st;
     face_encodings := face_encodings st;
     face_recognition_active := face_recognition_active st;
     msg := msg st; history := history st ++ [ev] |}.

Definition with_students st (d : roster) : system S E :=
  {| sheet := sheet st; students_data := d;
     face_encodings := face_encodings st;
     face_recognition_active := face_recognition_active st;
     msg := msg st; history := history st |}.

Definition with_active st (b : bool) : system S E :=
  {| sheet := sheet st; students_data := students_data st;
     face_encodings := face_encodings st;
     face_recognition_active := b;
     msg := msg st; history := history st |}.

Definition with_event st (ev : event) : system S E :=
  {| sheet := sheet st; students_data := students_data st;
     face_encodings := face_encodings st;
     face_recognition_active := face_recognition_active st;
     msg := msg st; history := history st ++ [ev] |}.

(** [show_message]: the message stays for 180 frames. *)
Definition show_message (txt : string) (c : colour) st : system S E :=
  {| sheet := sheet st; students_data := students_data st;
     face_encodings := face_encodings st;
     face_recognition_active := face_recognition_active st;
     msg := {| text := txt; color := c; timer := 180 |};
     history := history st |}.
End Setters.

(** ** The operations *)

(** Where [mark_attendance] leaves: one constructor per [return], and
    [Uncaught] for the [KeyError] that [student['attendance'][current_lecture]]
    raises outside the [try]. *)
Inductive outcome :=
  | NoActiveLecture
  | EmptyPRN
  | NotFound
  | AlreadyPresent
  | Marked
  | NotInSheet
  | MarkError (e : exn)
  | Uncaught (e : exn).

Global Instance exn_eq_dec : EqDecision exn.
Proof. solve_decision. Defined.

Global Instance outcome_eq_dec : EqDecision outcome.
Proof. solve_decision. Defined.

(** The value [mark_attendance] returns: [True] only after a write. *)
Definition returned (o : outcome) : option bool :=
  match o with
  | Marked => Some true
  | Uncaught _ => None
  | _ => Some false
  end.

(** Where [update_attendance_from_sheet] ends: after the [try] body or in the
    [except] handler. *)
Inductive refresh_outcome :=
  | Refreshed
  | RefreshError (e : exn).

(** The [tolerance=0.6] of the matching loop. *)
Definition tolerance : float := 0x1.3333333333333p-1%float.  (* 0.6 as a binary64 *)

Section Engine.
Context {S E : Type} `{!Worksheet S} `{!FaceLib E}.
Implicit Type st : system S E.

(** *** Loading *)

Definition update_attendance_from_sheet st : refresh_outcome * system S E :=
  let '(r, sh) := ws_get_all_records (sheet st) in
  let st := with_sheet st sh (CallGetAllRecords (is_ok r)) in
  match r with
  | Raise e =>
      (RefreshError e,
       show_message ("Error refreshing data: " +:+ exn_str e) ColError st)
  | Ok all_values =>
      let '(data, err) := load_records sheet_attendance all_values ∅ in
      let st := with_students st data in
      match err with
      | Some e =>
          (RefreshError e,
           show_message ("Error refreshing data: " +:+ exn_str e) ColError st)
      | None =>
          (Refreshed, show_message "Data refreshed successfully" ColSuccess st)
      end
  end.

(** [setup_student_data] re-raises what it catches. *)
Definition setup_student_data st : result unit * system S E :=
  let st := with_students st ∅ in
  let '(r, sh) := ws_get_all_records (sheet st) in
  let st := with_sheet st sh (CallGetAllRecords (is_ok r)) in
  match r with
  | Raise e =>
      (Raise e,
       show_message ("Error loading student data: " +:+ exn_str e) ColError st)
  | Ok records =>
      let '(data, err) :=
        load_records absent_attendance records (students_data st) in
      let st := with_students st data in
      match err with
      | Some e =>
          (Raise e,
           show_message ("Error loading student data: " +:+ exn_str e)
             ColError st)
      | None => (Ok (), snd (update_attendance_from_sheet st))
      end
  end.

(** *** Marking *)

(** [student['attendance'][current_lecture] = 'Present'], the student being
    the object stored under [prn]. *)
Definition set_present (prn current_lecture : string) (who : student)
    (data : roster) : roster :=
  <[prn := {| name := name who;
              attendance :=
                <[current_lecture := VStr "Present"]> (attendance who) |}]>
    data.

(** The [try] block of [mark_attendance] with its [except] handler. *)
Definition write_through (prn current_lecture : string) (who : student) st
    : outcome * system S E :=
  let failed e st :=
    (MarkError e,
     show_message ("Error marking attendance: " +:+ exn_str e) ColError st) in
  let '(r1, sh) := ws_find prn (sheet st) in
  let st := with_sheet st sh (CallFind prn (is_ok r1)) in
  match r1 with
  | Raise e => failed e st
  | Ok None =>
      (NotInSheet, show_message "Error: PRN not found in sheet" ColError st)
  | Ok (Some found) =>
      let row_num := row found in
      let '(r2, sh) := ws_find current_lecture (sheet st) in
      let st := with_sheet st sh (CallFind current_lecture (is_ok r2)) in
      match r2 with
      | Raise e => failed e st
      | Ok None =>
          failed (AttributeError "'NoneType' object has no attribute 'col'") st
      | Ok (Some header) =>
          let col_num := col header in
          let '(r3, sh) :=
            ws_update_cell row_num col_num "Present" (sheet st) in
          let st :=
            with_sheet st sh
              (CallUpdateCell row_num col_num "Present" (is_ok r3)) in
          match r3 with
          | Raise e => failed e st
          | Ok _ =>
              let st :=
                with_event
                  (with_students st
                     (set_present prn current_lecture who (students_data st)))
                  (SetAttendance prn current_lecture) in
              (Marked,
               show_message ("Marked present: " +:+ py_str (name who))
                 ColSuccess st)
          end
      end
  end.

(** [mark_attendance(prn)], the clock reading being [datetime.now()]. *)
Definition mark_attendance (clock : datetime) (prn : string) st
    : outcome * system S E :=
  match get_current_lecture clock with
  | None =>
      (NoActiveLecture,
       show_message "No active lecture at this time" ColError st)
  | Some current_lecture =>
      let prn := PyStr.strip prn in
      if decide (prn = "") then
        (EmptyPRN, show_message "Please enter a valid PRN" ColError st)
      else
        match students_data st !! prn with
        | None =>
            (NotFound,
             show_message ("PRN " +:+ prn +:+ " not found") ColError st)
        | Some who =>
            match attendance who !! current_lecture with
            | None => (Uncaught (KeyError current_lecture), st)
            | Some status =>
                if is_present status then
                  (AlreadyPresent,
                   show_message
                     ("Already marked present: " +:+ py_str (name who))
                     ColError st)
                else write_through prn current_lecture who st
            end
        end
  end.

(** *** Matching faces *)

(** The inner loop of [process_face_recognition]: every known encoding is
    compared with the probe, in the order of [face_encodings.items()]. *)
Fixpoint find_matches (tol : float) (items : list (string * E)) (probe : E)
    (matches : list string) : result (list string) :=
  match items with
  | [] => Ok matches
  | (prn, known_encoding) :: rest =>
      match compare_faces [known_encoding] probe tol with
      | Raise e => Raise e
      | Ok [] => Raise IndexError
      | Ok (is_match :: _) =>
          find_matches tol rest probe
            (if is_match then matches ++ [prn] else matches)
      end
  end.

(** [for prn in matches: self.mark_attendance(prn)]; an exception that
    leaves [mark_attendance] ends the loop. *)
Fixpoint mark_matches (clock : datetime) (matches : list string) st
    : option exn * system S E :=
  match matches with
  | [] => (None, st)
  | prn :: rest =>
      match mark_attendance clock prn st with
      | (Uncaught e, st) => (Some e, st)
      | (_, st) => mark_matches clock rest st
      end
  end.

(** [for face_encoding in face_encodings: ...] over the probes of a frame.
    The clock reading is the same for the whole frame. *)
Fixpoint match_faces (clock : datetime) (probes : list E) st
    : option exn * system S E :=
  match probes with
  | [] => (None, st)
  | face_encoding :: rest =>
      match find_matches tolerance (face_encodings st) face_encoding [] with
      | Raise e => (Some e, st)
      | Ok matches =>
          match mark_matches clock matches st with
          | (Some e, st) => (Some e, st)
          | (None, st) => match_faces clock rest st
          end
      end
  end.

(** [toggle_face_recognition]; [camera_opens] is whether
    [cv2.VideoCapture(0)] comes back opened. *)
Definition toggle_face_recognition (camera_opens : bool) st : system S E :=
  if negb (face_recognition_active st) then
    if decide (length (face_encodings st) = 0) then
      show_message "No face recognition data available" ColError st
    else if camera_opens then
      show_message "Face recognition activated" ColSuccess
        (with_active st true)
    else
      show_message "Camera error: Could not open camera" ColError st
  else
    show_message "Face recognition deactivated" ColText
      (with_active st false).

(** [process_face_recognition] from the point where the probes of the frame
    are known ([probes] is the result of
    [face_recognition.face_encodings(small_frame, face_locations)]). *)
Definition process_face_recognition (clock : datetime) (camera_opens : bool)
    (probes : list E) st : system S E :=
  if negb (face_recognition_active st) then st
  else
    match match_faces clock probes st with
    | (None, st) => st
    | (Some e, st) =>
        toggle_face_recognition camera_opens
          (show_message ("Face recognition error: " +:+ exn_str e)
             ColError st)
    end.

End Engine.

(** ** An in-memory worksheet

    A stand-in for the remote sheet, used to run the operations on concrete
    data: a grid of cell texts whose first row is the header, and a schedule
    saying which of the coming calls fail. *)

Module Grid.

Record t := { cells : list (list string); outages : list bool }.

(** One API call: it fails when the schedule says so. *)
Definition call {A} (g : t)
    (k : list (list string) → result A * list (list string))
    : result A * t :=
  match outages g with
  | true :: rest =>
      (Raise (LibraryError "APIError"), {| cells := cells g; outages := rest |})
  | plan =>
      let '(r, c) := k (cells g) in
      (r, {| cells := c; outages := tl plan |})
  end.

Definition is_digit (c : ascii) : bool :=
  (48 <=? PyStr.ord c) && (PyStr.ord c <=? 57).

Fixpoint all_digits (s : string) : bool :=
  match s with
  | EmptyString => true
  | String c s' => is_digit c && all_digits s'
  end.

Fixpoint digits_value (acc : Z) (s : string) : Z :=
  match s with
  | EmptyString => acc
  | String c s' => digits_value (10 * acc + Z.of_nat (PyStr.ord c - 48)) s'
  end.

(** Cells that read as a non-negative integer come back as [int]; other
    cells, the empty one included, as text. *)
Definition numericise (s : string) : value :=
  match s with
  | EmptyString => VStr s
  | _ => if all_digits s then VInt (digits_value 0 s) else VStr s
  end.

(** One dict per row below the header; short rows are padded with [''];
    of two equal headers the later one wins. *)
Definition row_record (header row : list string) : record :=
  foldl (λ d '(j, h), <[h := numericise (default EmptyString (row !! j))]> d)
        ∅ (imap (λ j h, (j, h)) header).

Definition get_all_records (g : t) : result (list record) * t :=
  call g (λ c,
    match c with
    | [] => (Ok [], c)
    | header :: rows => (Ok (map (row_record header) rows), c)
    end).

Fixpoint find_in_row (q : string) (row : list string) (c : nat) : option nat :=
  match row with
  | [] => None
  | x :: rest => if decide (x = q) then Some c else find_in_row q rest (Datatypes.S c)
  end.

Fixpoint find_in_rows (q : string) (rows : list (list string)) (r : nat)
    : option cell :=
  match rows with
  | [] => None
  | x :: rest =>
      match find_in_row q x 1 with
      | Some c => Some {| row := r; col := c |}
      | None => find_in_rows q rest (Datatypes.S r)
      end
  end.

(** The first cell, row by row, whose text is the query. *)
Definition find (q : string) (g : t) : result (option cell) * t :=
  call g (λ c, (Ok (find_in_rows q c 1), c)).

(** Writing inside the grid succeeds; outside it is an API error. *)
Definition update_cell (r c : nat) (v : string) (g : t) : result unit * t :=
  call g (λ rows,
    match r, c with
    | Datatypes.S r', Datatypes.S c' =>
        match rows !! r' with
        | Some line =>
            if decide (c' < length line)
            then (Ok (), <[r' := <[c' := v]> line]> rows)
            else (Raise (LibraryError "APIError"), rows)
        | None => (Raise (LibraryError "APIError"), rows)
        end
    | _, _ => (Raise (LibraryError "APIError"), rows)
    end).

Global Instance worksheet : Worksheet t :=
  {| ws_get_all_records := get_all_records;
     ws_find := find;
     ws_update_cell := update_cell |}.

End Grid.

(** ** Encodings as float vectors

    A stand-in for the face library: the Euclidean distance of two vectors,
    summed left to right, and the shape error of the numeric library when the
    vectors cannot be subtracted (lengths differ and neither is 1). *)

Module Vec.

Definition t := list float.

Definition shape_error : exn :=
  LibraryError "operands could not be broadcast together".

Definition sub (k p : t) : result (list float) :=
  if decide (length k = length p) then
    Ok (zip_with PrimFloat.sub k p)
  else
    match k, p with
    | [x], _ => Ok (map (λ y, PrimFloat.sub x y) p)
    | _, [y] => Ok (map (λ x, PrimFloat.sub x y) k)
    | _, _ => Raise shape_error
    end.

Definition norm (v : list float) : float :=
  PrimFloat.sqrt
    (foldl (λ acc x, PrimFloat.add acc (PrimFloat.mul x x)) 0%float v).

Definition distance (k p : t) : result float :=
  match sub k p with
  | Raise e => Raise e
  | Ok d => Ok (norm d)
  end.

Global Instance facelib : FaceLib t := {| face_distance := distance |}.

End Vec.

(** ** States used in the examples *)

Definition initial_message : message :=
  {| text := EmptyString; color := ColText; timer := 0 |}.

Definition start (g : Grid.t) (data : roster)
    (encodings : list (string * Vec.t)) (active : bool) : system Grid.t Vec.t :=
  {| sheet := g; students_data := data; face_encodings := encodings;
     face_recognition_active := active; msg := initial_message;
     history := [] |}.

(** ** Reading a history *)

Definition is_write (ev : event) : bool :=
  match ev with
  | CallUpdateCell _ _ _ _ => true
  | _ => false
  end.

(** Number of [update_cell] calls in a history. *)
Definition writes (h : list event) : nat := length (List.filter is_write h).

(** ** A class of two *)

Definition header : list string :=
  ["PRN"; "RName"; "Lecture1"; "Lecture2"; "Lecture3"; "Lecture4";
   "Lecture5"; "Lecture6"; "Lecture7"; "Lecture8"].

(** Alice has no mark yet; Bob is present in the first lecture. *)
Definition class_sheet : Grid.t :=
  {| Grid.cells :=
       [ header;
         ["A1"; "Alice"; ""; ""; ""; ""; ""; ""; ""; ""];
         ["A2"; "Bob"; "Present"; ""; ""; ""; ""; ""; ""; ""] ];
     Grid.outages := [] |}.

(** The state after [setup_student_data] on a sheet. *)
Definition loaded (g : Grid.t) : system Grid.t Vec.t :=
  snd (setup_student_data (start g ∅ [] false)).

(** The class in front of the camera: the directory as loaded from the
    sheet, the given known encodings, face recognition switched on. *)
Definition watching (encodings : list (string * Vec.t)) : system Grid.t Vec.t :=
  start class_sheet (students_data (loaded class_sheet)) encodings true.


(** A sheet with a row whose PRN cell is empty. *)
Definition gap_sheet : Grid.t :=
  {| Grid.cells :=
       [ header;
         ["A1"; "Alice"; ""; ""; ""; ""; ""; ""; ""; ""];
         [""; "Bob"; ""; ""; ""; ""; ""; ""; ""; ""] ];
     Grid.outages := [] |}.

(** ** Predicates used in the statements *)

Section MatcherPredicates.
Context {E : Type} `{!FaceLib E}.

(** Whether a known encoding is accepted for a probe: its distance is
    computed and is at most the tolerance. *)
Definition accepted (tol : float) (probe : E) (x : string * E) : bool :=
  match face_distance (snd x) probe with
  | Ok d => PrimFloat.leb d tol
  | Raise _ => false
  end.

(** The library returns a distance for this known encoding and this probe. *)
Definition comparable (probe : E) (x : string * E) : Prop :=
  ∃ d, face_distance (snd x) probe = Ok d.

End MatcherPredicates.

(** The session identifiers of the schedule. *)
Definition session_ids : list string := map fst lectures.

(** Every session has an entry in an attendance dict. *)
Definition complete_attendance (a : gmap string value) : Prop :=
  ∀ l, l ∈ session_ids → is_Some (a !! l).

(** Every student of the directory has an entry for every session. *)
Definition complete_records (data : roster) : Prop :=
  ∀ prn who, data !! prn = Some who → complete_attendance (attendance who).


(** A record carries both fields the loaders read. *)
Definition has_fields (r : record) : Prop :=
  is_Some (r !! "PRN") ∧ is_Some (r !! "RName").

Definition is_set_attendance (ev : event) : bool :=
  match ev with
  | SetAttendance _ _ => true
  | _ => false
  end.

(** A worksheet call that did not return. *)
Definition is_failed_call (ev : event) : bool :=
  match ev with
  | CallGetAllRecords ok | CallFind _ ok | CallUpdateCell _ _ _ ok => negb ok
  | SetAttendance _ _ => false
  end.

Section MarkingPredicates.
Context {S E : Type} `{!Worksheet S}.
Implicit Type st : system S E.

(** What [mark_attendance] leaves alone whatever it returns. *)
Definition same_setup st st' : Prop :=
  face_encodings st' = face_encodings st
  ∧ face_recognition_active st' = face_recognition_active st.

(** The two ways the [try] block ends: the cell was written and then the
    student updated, or nothing was updated. *)
Definition marked_step (prn l : string) (who : student) st st'
    (calls : list event) : Prop :=
  ∃ r c,
    calls = [CallFind prn true; CallFind l true;
             CallUpdateCell r c "Present" true; SetAttendance prn l]
    ∧ students_data st' = set_present prn l who (students_data st).

Definition failed_step st st' (calls : list event) : Prop :=
  students_data st' = students_data st
  ∧ Forall (λ ev, is_set_attendance ev = false) calls
  ∧ Forall (λ ev, is_write ev = true → is_failed_call ev = true) calls
  ∧ writes calls ≤ 1.

End MarkingPredicates.

(** ** More of Python's [str] *)

Module PyStrOps.

(** [c.isalnum()] for an ASCII character: a digit or a letter. *)
Definition isalnum_char (c : ascii) : bool :=
  let n := PyStr.ord c in
  ((48 <=? n) && (n <=? 57)) || ((65 <=? n) && (n <=? 90))
  || ((97 <=? n) && (n <=? 122)).

Fixpoint all_alnum (s : string) : bool :=
  match s with
  | EmptyString => true
  | String c s' => isalnum_char c && all_alnum s'
  end.

(** [s.isalnum()]: every character is alphanumeric and there is at least
    one. *)
Definition isalnum (s : string) : bool :=
  match s with
  | EmptyString => false
  | _ => all_alnum s
  end.

(** [s.startswith(pre)] *)
Fixpoint startswith (s pre : string) : bool :=
  match pre, s with
  | EmptyString, _ => true
  | String _ _, EmptyString => false
  | String d pre', String c s' =>
      if decide (c = d) then startswith s' pre' else false
  end.

(** [s.endswith(suf)] *)
Definition endswith (s suf : string) : bool :=
  startswith (PyStr.rev s) (PyStr.rev suf).

(** [s.split(sep)[0]] for a one-character separator: what stands before its
    first occurrence, or all of [s]. *)
Fixpoint before (sep : ascii) (s : string) : string :=
  match s with
  | EmptyString => EmptyString
  | String c s' =>
      if decide (c = sep) then EmptyString else String c (before sep s')
  end.

(** [s[:-1]] *)
Definition drop_last (s : string) : string :=
  match PyStr.rev s with
  | EmptyString => EmptyString
  | String _ r => PyStr.rev r
  end.

(** [os.path.join(a, b)] on a POSIX system, for [a] not ending in a slash. *)
Definition path_join (a b : string) : string :=
  if startswith b "/" then b else a +:+ "/" +:+ b.

End PyStrOps.

(** ** The input box, the list and the message line *)

(** The part of the window state that the event handlers of [run] change:
    [self.active_input], [self.input_text], [self.scroll_offset] and
    [self.SCREEN_HEIGHT]. *)
Record ui := {
  active_input : bool;
  input_text : string;
  scroll_offset : Z;
  screen_height : Z
}.

Definition with_input (u : ui) (s : string) : ui :=
  {| active_input := active_input u; input_text := s;
     scroll_offset := scroll_offset u; screen_height := screen_height u |}.

Definition with_scroll (u : ui) (off : Z) : ui :=
  {| active_input := active_input u; input_text := input_text u;
     scroll_offset := off; screen_height := screen_height u |}.

(** What [handle_manual_entry] did: returned at the empty input, returned
    after [validate_prn] refused, or called [mark_attendance]. *)
Inductive entry_result :=
  | NothingTyped
  | Rejected
  | Entered (o : outcome).

(** The keys the [KEYDOWN] handler tells apart. *)
Inductive key := K_RETURN | K_BACKSPACE | K_OTHER.

(** The colours of the status column: [COLORS['present']] and
    [COLORS['absent']]. *)
Inductive status_colour := ColPresent | ColAbsent.

(** [list_rect = pygame.Rect(50, 420, SCREEN_WIDTH - 100, SCREEN_HEIGHT - 470)]:
    its [y] and its [bottom]. *)
Definition list_top : Z := 420.
Definition list_bottom (height : Z) : Z := (420 + (height - 470))%Z.
Definition line_height : Z := 40.

(** [y_pos] of the row of the [i]-th student, counted from 0. *)
Definition row_y (off : Z) (i : nat) : Z :=
  (list_top + 50 + off + line_height * Z.of_nat i)%Z.

(** [if y_pos + line_height > list_rect.y and y_pos < list_rect.bottom]:
    whether the row is drawn. *)
Definition row_drawn (height off : Z) (i : nat) : bool :=
  (list_top <? row_y off i + line_height)%Z
  && (row_y off i <? list_bottom height)%Z.

(** The scrolling of a wheel event ([event.button] 4 or 5) with [n] students
    in the directory. *)
Definition wheel_scroll (button : nat) (n : nat) (height off : Z) : Z :=
  let off := (off + (if decide (button = 4%nat) then 30 else -30))%Z in
  let max_scroll := (- Z.of_nat n * 40 + height - 470)%Z in
  Z.min 0 (Z.max max_scroll off).

(** [if event.button in (4, 5): ...] *)
Definition on_wheel (button : nat) (data : roster) (u : ui) : ui :=
  if decide (button = 4 ∨ button = 5) then
    with_scroll u
      (wheel_scroll button (size data) (screen_height u) (scroll_offset u))
  else u.

(** [self.get_current_lecture() or "No Active Lecture"] *)
Definition shown_lecture (clock : datetime) : string :=
  default "No Active Lecture" (get_current_lecture clock).

(** [data['attendance'].get(current_lecture, 'Absent')] *)
Definition shown_status (clock : datetime) (who : student) : value :=
  default (VStr "Absent") (attendance who !! shown_lecture clock).

(** [COLORS['present'] if status == 'Present' else COLORS['absent']] *)
Definition shown_colour (status : value) : status_colour :=
  if is_present status then ColPresent else ColAbsent.

(** [dict[k] = v] on a dict kept as the list of its items: a key that is
    there keeps its place, a new key goes to the end. *)
Fixpoint dict_set {A} (k : string) (v : A) (items : list (string * A))
    : list (string * A) :=
  match items with
  | [] => [(k, v)]
  | (k', v') :: rest =>
      if decide (k' = k) then (k, v) :: rest
      else (k', v') :: dict_set k v rest
  end.

(** [face_recognition.load_image_file(path)] followed by
    [face_recognition.face_encodings(image)]: the encodings of the faces
    found in the image, or an exception. *)
Class ImageLib (E : Type) := {
  encode_image : string → result (list E)
}.

(** [image_file.endswith(('.jpg', '.jpeg', '.png'))] *)
Definition is_image (image_file : string) : bool :=
  PyStrOps.endswith image_file ".jpg"
  || PyStrOps.endswith image_file ".jpeg"
  || PyStrOps.endswith image_file ".png".

Section Window.
Context {S E : Type} `{!Worksheet S} `{!ImageLib E}.
Implicit Type st : system S E.

Definition with_encodings st (items : list (string * E)) : system S E :=
  {| sheet := sheet st; students_data := students_data st;
     face_encodings := items;
     face_recognition_active := face_recognition_active st;
     msg := msg st; history := history st |}.

Definition with_message st (m : message) : system S E :=
  {| sheet := sheet st; students_data := students_data st;
     face_encodings := face_encodings st;
     face_recognition_active := face_recognition_active st;
     msg := m; history := history st |}.

(** [validate_prn]: the PRN, or [None] after a message. *)
Definition validate_prn (prn : string) st : option string * system S E :=
  let prn := PyStr.strip prn in
  if negb (PyStrOps.isalnum prn) then
    (None, show_message "PRN must be alphanumeric characters" ColError st)
  else
    match students_data st !! prn with
    | None =>
        (None,
         show_message ("PRN " +:+ prn +:+ " not found in the database")
           ColError st)
    | Some _ => (Some prn, st)
    end.

(** [is_lecture_time] *)
Definition is_lecture_time (clock : datetime) st : bool * system S E :=
  match get_current_lecture clock with
  | None => (false, show_message "No active lecture at this time" ColError st)
  | Some _ => (true, st)
  end.

(** [handle_manual_entry].  The input is cleared after [mark_attendance]
    returns, whatever it returns; an exception leaving [mark_attendance]
    leaves the input as typed. *)
Definition handle_manual_entry (clock : datetime) (u : ui) st
    : entry_result * (ui * system S E) :=
  if decide (input_text u = EmptyString) then
    (NothingTyped, (u, show_message "Please enter a PRN" ColError st))
  else
    match validate_prn (input_text u) st with
    | (None, st) => (Rejected, (u, st))
    | (Some prn, st) =>
        if decide (prn = EmptyString) then (Rejected, (u, st))
        else
          match mark_attendance clock prn st with
          | (Uncaught e, st) => (Entered (Uncaught e), (u, st))
          | (o, st) => (Entered o, (with_input u EmptyString, st))
          end
    end.

(** The [KEYDOWN] branch of [run]; [unicode] is [event.unicode]. *)
Definition on_keydown (clock : datetime) (k : key) (unicode : string)
    (u : ui) st : ui * system S E :=
  if active_input u then
    match k with
    | K_RETURN => snd (handle_manual_entry clock u st)
    | K_BACKSPACE => (with_input u (PyStrOps.drop_last (input_text u)), st)
    | K_OTHER =>
        if decide (String.length (input_text u) < 12) then
          (with_input u (input_text u +:+ unicode), st)
        else (u, st)
    end
  else (u, st).

(** The message line of [draw_ui]: what is rendered in this frame, and the
    timer going down. *)
Definition draw_message st : option (string * colour) * system S E :=
  if decide (0 < timer (msg st)) then
    (Some (text (msg st), color (msg st)),
     with_message st
       {| text := text (msg st); color := color (msg st);
          timer := timer (msg st) - 1 |})
  else (None, st).

(** [add_face_encoding] *)
Definition add_face_encoding (prn image_path : string) st
    : bool * system S E :=
  let failed e :=
    (false,
     show_message
       ("Error encoding face for PRN " +:+ prn +:+ ": " +:+ exn_str e)
       ColError st) in
  match encode_image image_path with
  | Raise e => failed e
  | Ok [] => failed IndexError
  | Ok (encoding :: _) =>
      (true, with_encodings st (dict_set prn encoding (face_encodings st)))
  end.

(** The loop of [setup_face_recognition] over the directory listing. *)
Fixpoint add_images (files : list string) st : system S E :=
  match files with
  | [] => st
  | image_file :: rest =>
      if is_image image_file then
        let prn := PyStrOps.before "." image_file in
        let image_path := PyStrOps.path_join "images" image_file in
        add_images rest (snd (add_face_encoding prn image_path st))
      else add_images rest st
  end.

(** [setup_face_recognition]; [listing] is what [os.listdir(self.path)]
    gives.  Creating the directory is left out. *)
Definition setup_face_recognition (listing : result (list string)) st
    : system S E :=
  let st := with_encodings st [] in
  match listing with
  | Raise e =>
      show_message ("Face recognition setup error: " +:+ exn_str e) ColError st
  | Ok files => add_images files st
  end.

End Window.

(** ** An album of enrollment images for the examples *)

Module Album.

(** Alice's image shows one face, Bob's none, and a third file cannot be
    read. *)
Definition encode (path : string) : result (list Vec.t) :=
  if decide (path = "images/A1.jpg") then Ok [[1; 2]%float]
  else if decide (path = "images/A2.png") then Ok []
  else Raise (LibraryError "cannot identify image file").

Global Instance imagelib : ImageLib Vec.t := {| encode_image := encode |}.

End Album.

(** ** More predicates used in the statements *)

(** The attendance dict has the eight lecture keys and no other. *)
Definition exact_attendance (a : gmap string value) : Prop :=
  ∀ l, is_Some (a !! l) ↔ l ∈ session_ids.

Definition exact_records (data : roster) : Prop :=
  ∀ prn who, data !! prn = Some who → exact_attendance (attendance who).

(** The student a record gives, with the key it is stored under. *)
Definition built (mk : record → gmap string value) (r : record)
    : option (string * student) :=
  match r !! "PRN", r !! "RName" with
  | Some p, Some nm => Some (py_str p, {| name := nm; attendance := mk r |})
  | _, _ => None
  end.

(** The student given by the last record stored under [prn]. *)
Fixpoint last_built (mk : record → gmap string value) (prn : string)
    (records : list record) : option student :=
  match records with
  | [] => None
  | r :: rest =>
      match last_built mk prn rest with
      | Some s => Some s
      | None =>
          match built mk r with
          | Some (k, s) => if decide (k = prn) then Some s else None
          | None => None
          end
      end
  end.

(** Face recognition is on only with known encodings. *)
Definition camera_has_faces {S E} (st : system S E) : Prop :=
  face_recognition_active st = true → face_encodings st ≠ [].



Section EnrolPredicate.
Context {E : Type} `{!ImageLib E}.

(** Whether an image file gives an encoding. *)
Definition enrols (image_file : string) : Prop :=
  is_image image_file = true
  ∧ ∃ enc rest,
      encode_image (PyStrOps.path_join "images" image_file) = Ok (enc :: rest).

End EnrolPredicate.

(** ** Facts about the resolver *)

Section Resolver.

Lemma ord_digit d : d < 10 → PyStr.ord (PyStr.digit d) = 48 + d.
Proof.
  intros Hd. unfold PyStr.ord, PyStr.digit.
  apply nat_ascii_embedding. lia.
Qed.

Lemma compare_digit a b :
  a < 10 → b < 10 →
  Nat.compare (PyStr.ord (PyStr.digit a)) (PyStr.ord (PyStr.digit b))
  = Nat.compare a b.
Proof.
  intros Ha Hb. rewrite !ord_digit by assumption.
  destruct (Nat.compare_spec a b) as [E|L|G].
  - subst. apply Nat.compare_refl.
  - apply Nat.compare_lt_iff. lia.
  - apply Nat.compare_gt_iff. lia.
Qed.

(** Splitting a number below 100 into its two decimal digits. *)
Lemma two_digit_split n :
  n < 100 → ∃ a b, a < 10 ∧ b < 10 ∧ n = 10 * a + b ∧ n / 10 = a ∧ n mod 10 = b.
Proof.
  intros Hn. exists (n / 10), (n mod 10).
  pose proof (Nat.div_mod_eq n 10) as E.
  pose proof (Nat.mod_upper_bound n 10 ltac:(lia)) as B.
  repeat split; lia.
Qed.

Lemma strftime_HM_chars t :
  strftime_HM t
  = String (PyStr.digit (hour t / 10)) (String (PyStr.digit (hour t mod 10))
      (String ":" (String (PyStr.digit (minute t / 10))
         (String (PyStr.digit (minute t mod 10)) EmptyString)))).
Proof. reflexivity. Qed.

(** Zero-padded [HH:MM] strings compare as the times they denote. *)
Lemma compare_strftime t1 t2 :
  valid_time t1 → valid_time t2 →
  PyStr.compare (strftime_HM t1) (strftime_HM t2)
  = Nat.compare (minutes_of_day t1) (minutes_of_day t2).
Proof.
  intros [Hh1 Hm1] [Hh2 Hm2].
  destruct t1 as [h1 m1], t2 as [h2 m2].
  cbn [hour minute] in Hh1, Hm1, Hh2, Hm2.
  destruct (two_digit_split h1 ltac:(lia)) as (a1 & b1 & ? & ? & Eh1 & Da1 & Db1).
  destruct (two_digit_split h2 ltac:(lia)) as (a2 & b2 & ? & ? & Eh2 & Da2 & Db2).
  destruct (two_digit_split m1 ltac:(lia)) as (c1 & d1 & ? & ? & Em1 & Dc1 & Dd1).
  destruct (two_digit_split m2 ltac:(lia)) as (c2 & d2 & ? & ? & Em2 & Dc2 & Dd2).
  unfold minutes_of_day. rewrite !strftime_HM_chars.
  cbn [hour minute].
  rewrite Da1, Db1, Da2, Db2, Dc1, Dd1, Dc2, Dd2.
  cbn [PyStr.compare].
  rewrite !compare_digit by assumption.
  rewrite Nat.compare_refl.
  destruct (Nat.compare_spec a1 a2);
    [|symmetry; apply Nat.compare_lt_iff; lia
     |symmetry; apply Nat.compare_gt_iff; lia].
  destruct (Nat.compare_spec b1 b2);
    [|symmetry; apply Nat.compare_lt_iff; lia
     |symmetry; apply Nat.compare_gt_iff; lia].
  destruct (Nat.compare_spec c1 c2);
    [|symmetry; apply Nat.compare_lt_iff; lia
     |symmetry; apply Nat.compare_gt_iff; lia].
  destruct (Nat.compare_spec d1 d2); symmetry;
    [apply Nat.compare_eq_iff|apply Nat.compare_lt_iff|apply Nat.compare_gt_iff];
    lia.
Qed.

Lemma le_strftime t1 t2 :
  valid_time t1 → valid_time t2 →
  PyStr.le (strftime_HM t1) (strftime_HM t2)
  = (minutes_of_day t1 <=? minutes_of_day t2).
Proof.
  intros H1 H2. unfold PyStr.le. rewrite compare_strftime by assumption.
  destruct (Nat.compare_spec (minutes_of_day t1) (minutes_of_day t2));
    symmetry; [apply Nat.leb_le|apply Nat.leb_le|apply Nat.leb_gt]; lia.
Qed.

(** The string table is the numeric table, formatted. *)
Lemma lectures_formatted :
  lectures
  = map (λ '(l, (s, e)), (l, (strftime_HM s, strftime_HM e))) lecture_times.
Proof. vm_compute. reflexivity. Qed.

Lemma lecture_times_valid :
  Forall (λ '(_, (s, e)), valid_time s ∧ valid_time e) lecture_times.
Proof.
  unfold lecture_times.
  repeat (apply Forall_cons_2; [unfold valid_time, at_time; cbn [hour minute]; lia|]).
  apply Forall_nil_2.
Qed.

Lemma first_lecture_formatted items now :
  valid_time now →
  Forall (λ '(_, (s, e)), valid_time s ∧ valid_time e) items →
  first_lecture
    (map (λ '(l, (s, e)), (l, (strftime_HM s, strftime_HM e))) items)
    (strftime_HM now)
  = first_window items now.
Proof.
  intros Hnow. induction 1 as [|[l [s e]] items [Hs He] _ IH]; [reflexivity|].
  cbn [map first_lecture first_window]. unfold in_window. cbn [fst snd].
  rewrite !le_strftime by assumption. rewrite IH. reflexivity.
Qed.

Lemma get_current_lecture_numeric now :
  valid_time now → get_current_lecture now = current_session_numeric now.
Proof.
  intros Hnow. unfold get_current_lecture, current_session_numeric.
  rewrite lectures_formatted.
  apply first_lecture_formatted; [assumption|apply lecture_times_valid].
Qed.

(** What a first-match loop returns. *)
Lemma first_window_Some items now l :
  first_window items now = Some l →
  ∃ pre w post,
    items = pre ++ (l, w) :: post
    ∧ in_window w now = true
    ∧ Forall (λ x, in_window (snd x) now = false) pre.
Proof.
  induction items as [|[l' w'] items IH]; simpl; [discriminate|].
  destruct (in_window w' now) eqn:E.
  - intros [= <-]. exists [], w', items. repeat split; auto.
  - intros H. destruct (IH H) as (pre & w & post & -> & Hw & Hpre).
    exists ((l', w') :: pre), w, post. repeat split; auto.
Qed.

Lemma first_window_None items now :
  first_window items now = None →
  Forall (λ x, in_window (snd x) now = false) items.
Proof.
  induction items as [|[l' w'] items IH]; simpl; [constructor|].
  destruct (in_window w' now) eqn:E; [discriminate|].
  intros H. constructor; auto.
Qed.

Lemma first_window_first pre l w post now :
  Forall (λ x, in_window (snd x) now = false) pre →
  in_window w now = true →
  first_window (pre ++ (l, w) :: post) now = Some l.
Proof.
  induction 1 as [|[l' w'] pre Hx _ IH]; intros Hw; cbn [app first_window].
  - now rewrite Hw.
  - cbn [snd] in Hx. rewrite Hx. auto.
Qed.

Lemma first_window_none items now :
  Forall (λ x, in_window (snd x) now = false) items →
  first_window items now = None.
Proof.
  induction 1 as [|[l' w'] items Hx _ IH]; cbn [first_window]; [reflexivity|].
  cbn [snd] in Hx. now rewrite Hx.
Qed.

Lemma boundaries_resolve :
  Forall (λ '(l, (s, e)),
            get_current_lecture s = Some l ∧ get_current_lecture e = Some l)
         lecture_times.
Proof.
  unfold lecture_times.
  repeat (apply Forall_cons_2; [split; vm_compute; reflexivity|]).
  apply Forall_nil_2.
Qed.

End Resolver.

(** C2. At every clock reading [get_current_lecture] returns the first
    lecture, in the order of the table, whose window contains the time of day
    under the closed test [start <= now <= end], and [None] exactly when no
    window contains it; at the start and at the end of each configured window
    it returns that lecture. *)
Theorem get_current_lecture_first_match (now : datetime) :
  valid_time now →
  (∀ l, get_current_lecture now = Some l ↔
        ∃ pre w post,
          lecture_times = pre ++ (l, w) :: post
          ∧ in_window w now = true
          ∧ Forall (λ x, in_window (snd x) now = false) pre)
  ∧ (get_current_lecture now = None ↔
     Forall (λ x, in_window (snd x) now = false) lecture_times)
  ∧ Forall (λ '(l, (s, e)),
              get_current_lecture s = Some l ∧ get_current_lecture e = Some l)
           lecture_times.
Proof.
  intros Hnow. rewrite get_current_lecture_numeric by assumption.
  unfold current_session_numeric. split; [|split].
  - intros l. split.
    + apply first_window_Some.
    + intros (pre & w & post & -> & Hw & Hpre).
      now apply first_window_first.
  - split; [apply first_window_None|apply first_window_none].
  - apply boundaries_resolve.
Qed.

Lemma get_current_lecture_first_match_witness :
  valid_time (at_time 8 30)
  ∧ get_current_lecture (at_time 8 30) = Some "Lecture1".
Proof.
  assert (Hv : valid_time (at_time 8 30)) by (unfold valid_time; simpl; lia).
  split; [exact Hv|].
  destruct (get_current_lecture_first_match (at_time 8 30) Hv) as [H _].
  apply H. exists [], (at_time 8 0, at_time 9 0), (tl lecture_times).
  split; [reflexivity|]. split; [reflexivity|constructor].
Defined.

(** C10. The resolver compares ["HH:MM"] strings lexicographically; on
    zero-padded 24-hour strings this agrees with comparing the times they
    denote, and the string resolver returns what the resolver over numeric
    times of day returns. *)
Theorem string_resolver_refines_numeric :
  (∀ t1 t2, valid_time t1 → valid_time t2 →
     PyStr.compare (strftime_HM t1) (strftime_HM t2)
     = Nat.compare (minutes_of_day t1) (minutes_of_day t2))
  ∧ (∀ t1 t2, valid_time t1 → valid_time t2 →
     PyStr.le (strftime_HM t1) (strftime_HM t2)
     = (minutes_of_day t1 <=? minutes_of_day t2))
  ∧ (∀ now, valid_time now →
     get_current_lecture now = current_session_numeric now).
Proof.
  split; [exact compare_strftime|].
  split; [exact le_strftime|exact get_current_lecture_numeric].
Qed.

Lemma string_resolver_refines_numeric_witness :
  PyStr.le (strftime_HM (at_time 9 10)) (strftime_HM (at_time 10 5)) = true
  ∧ get_current_lecture (at_time 9 30) = Some "Lecture2".
Proof.
  destruct string_resolver_refines_numeric as (_ & Hle & Hres).
  split.
  - rewrite Hle; [reflexivity| |]; unfold valid_time; simpl; lia.
  - rewrite Hres; [reflexivity|]. unfold valid_time; simpl; lia.
Defined.

(** ** Facts about the matching loop *)

Section FloatOrder.

(** A zero is within every positive tolerance. *)
Lemma leb_zero_positive (d tol : float) :
  PrimFloat.eqb d 0 = true → PrimFloat.ltb 0 tol = true →
  PrimFloat.leb d tol = true.
Proof.
  rewrite FloatAxioms.eqb_spec, FloatAxioms.ltb_spec, FloatAxioms.leb_spec.
  change (Prim2SF 0) with (S754_zero false).
  destruct (Prim2SF d) as [s|s| |s m e];
    destruct (Prim2SF tol) as [s'|s'| |s' m' e'];
    cbn; try discriminate; try reflexivity;
    try (destruct s'; cbn; congruence); destruct s; cbn; congruence.
Qed.

(** A positive distance is not within tolerance zero. *)
Lemma leb_positive_zero (d : float) :
  PrimFloat.ltb 0 d = true → PrimFloat.leb d 0 = false.
Proof.
  rewrite FloatAxioms.ltb_spec, FloatAxioms.leb_spec.
  change (Prim2SF 0) with (S754_zero false).
  destruct (Prim2SF d) as [s|s| |s m e];
    cbn; try discriminate; try reflexivity; destruct s; cbn; congruence.
Qed.

End FloatOrder.

Section Matcher.
Context {E : Type} `{!FaceLib E}.

Lemma find_matches_comparable tol items probe acc :
  Forall (comparable probe) items →
  find_matches tol items probe acc
  = Ok (acc ++ map fst (List.filter (accepted tol probe) items)).
Proof.
  intros Hall. revert acc.
  induction Hall as [|[prn known] items [d Hd] _ IH]; intros acc.
  - cbn. now rewrite app_nil_r.
  - cbn [find_matches compare_faces List.filter]. unfold accepted at 1.
    cbn [snd] in *. rewrite Hd.
    rewrite IH. destruct (PrimFloat.leb d tol); cbn [map fst].
    + now rewrite <- app_assoc.
    + reflexivity.
Qed.

Lemma find_matches_raises tol items probe acc prn known e :
  (prn, known) ∈ items →
  face_distance known probe = Raise e →
  ∃ e', find_matches tol items probe acc = Raise e'.
Proof.
  intros Hin Hraise. revert acc.
  induction items as [|[p k] items IH]; intros acc.
  - apply elem_of_nil in Hin. contradiction.
  - cbn [find_matches compare_faces].
    destruct (face_distance k probe) as [d|e0] eqn:Hd; [|eauto].
    apply elem_of_cons in Hin as [Heq|Hin].
    + injection Heq as -> ->. congruence.
    + apply IH. exact Hin.
Qed.

End Matcher.

(** C8. With every known encoding comparable to the probe, the matching loop
    returns exactly the PRNs whose computed distance is at most the tolerance;
    so a known encoding at distance zero is matched under every tolerance
    above zero, and under tolerance zero no encoding at a positive distance is
    matched.  The application runs the loop at tolerance 0.6, where a known
    encoding at distance zero is therefore matched. *)
Theorem match_within_tolerance {E : Type} `{!FaceLib E}
    (tol : float) (items : list (string * E)) (probe : E) :
  Forall (comparable probe) items →
  ∃ matches,
    find_matches tol items probe [] = Ok matches
    ∧ (∀ prn, prn ∈ matches ↔
         ∃ known d, (prn, known) ∈ items
                    ∧ face_distance known probe = Ok d
                    ∧ PrimFloat.leb d tol = true)
    ∧ (PrimFloat.ltb 0 tol = true →
       ∀ prn known d, (prn, known) ∈ items →
         face_distance known probe = Ok d → PrimFloat.eqb d 0 = true →
         prn ∈ matches)
    ∧ (tol = 0%float →
       (∀ prn known d, (prn, known) ∈ items →
          face_distance known probe = Ok d → PrimFloat.ltb 0 d = true) →
       matches = [])
    ∧ (tol = tolerance →
       ∀ prn known d, (prn, known) ∈ items →
         face_distance known probe = Ok d → PrimFloat.eqb d 0 = true →
         prn ∈ matches).
Proof.
  intros Hall. eexists. split; [apply find_matches_comparable; exact Hall|].
  cbn [app].
  assert (Hiff : ∀ prn,
    prn ∈ map fst (List.filter (accepted tol probe) items) ↔
    ∃ known d, (prn, known) ∈ items ∧ face_distance known probe = Ok d
               ∧ PrimFloat.leb d tol = true).
  { intros prn. rewrite list_elem_of_In, in_map_iff. split.
    - intros ([p k] & <- & Hf). apply filter_In in Hf as [Hin Hacc].
      unfold accepted in Hacc. cbn [snd fst] in *.
      destruct (face_distance k probe) as [d|] eqn:Hd; [|discriminate].
      exists k, d. rewrite list_elem_of_In. auto.
    - intros (k & d & Hin & Hd & Hle). exists (prn, k). split; [reflexivity|].
      apply filter_In. split; [now apply list_elem_of_In|].
      unfold accepted. cbn [snd]. now rewrite Hd. }
  split; [exact Hiff|]. split; [|split].
  - intros Htol prn known d Hin Hd Hz. apply Hiff. exists known, d.
    repeat split; try assumption. now apply leb_zero_positive.
  - intros -> Hpos.
    destruct (map fst (List.filter (accepted 0 probe) items)) as [|prn rest] eqn:Hm;
      [reflexivity|].
    destruct (proj1 (Hiff prn) (list_elem_of_here _ _)) as (k & d & Hin & Hd & Hle).
    rewrite (leb_positive_zero d (Hpos _ _ _ Hin Hd)) in Hle. discriminate.
  - intros -> prn known d Hin Hd Hz. apply Hiff. exists known, d.
    repeat split; try assumption. apply leb_zero_positive; [exact Hz|reflexivity].
Qed.

Lemma match_within_tolerance_witness :
  ∃ matches,
    find_matches tolerance
      [("A1", [1; 2]%float : Vec.t); ("A2", [4; 6]%float : Vec.t)]
      ([1; 2]%float : Vec.t) [] = Ok matches
    ∧ "A1" ∈ matches.
Proof.
  destruct (match_within_tolerance tolerance
              [("A1", [1; 2]%float : Vec.t); ("A2", [4; 6]%float : Vec.t)]
              ([1; 2]%float : Vec.t)) as (m & Hm & Hiff & _).
  - repeat constructor; eexists; vm_compute; reflexivity.
  - exists m. split; [exact Hm|]. apply Hiff.
    exists ([1; 2]%float : Vec.t), 0%float.
    split; [apply list_elem_of_here|]. split; vm_compute; reflexivity.
Defined.

(** ** Facts about marking *)

Section Marking.
Context {S E : Type} `{!Worksheet S} `{!FaceLib E}.
Implicit Type st : system S E.

Lemma write_through_spec prn l who st :
  ∃ calls,
    history (snd (write_through prn l who st)) = history st ++ calls
    ∧ same_setup st (snd (write_through prn l who st))
    ∧ ((fst (write_through prn l who st) = Marked
        ∧ marked_step prn l who st (snd (write_through prn l who st)) calls)
       ∨ (fst (write_through prn l who st) ≠ Marked
          ∧ calls ≠ []
          ∧ failed_step st (snd (write_through prn l who st)) calls)).
Proof.
  unfold write_through, same_setup, marked_step, failed_step.
  destruct (ws_find prn (sheet st)) as [[[c1|]|e1] sh1]; cbn -[writes].
  2,3: eexists; split; [reflexivity|]; split; [done|]; right;
       repeat split; try done; repeat constructor; cbn; try done; lia.
  destruct (ws_find l sh1) as [[[c2|]|e2] sh2]; cbn -[writes].
  2,3: eexists; split; [rewrite <- app_assoc; reflexivity|]; split; [done|];
       right; repeat split; try done; repeat constructor; cbn; try done; lia.
  destruct (ws_update_cell (row c1) (col c2) "Present" sh2) as [[[]|e3] sh3];
    cbn -[writes].
  - eexists. split; [rewrite <- !app_assoc; reflexivity|]. split; [done|].
    left. split; [done|]. eauto.
  - eexists. split; [rewrite <- !app_assoc; reflexivity|]. split; [done|].
    right. repeat split; try done; repeat constructor; cbn; try done.
Qed.

Local Ltac no_call :=
  exists []; rewrite app_nil_r; unfold same_setup, failed_step; cbn;
  split; [done|]; split; [done|]; right;
  repeat split; try done; try constructor; lia.

Lemma mark_attendance_spec clock prn st :
  ∃ calls,
    history (snd (mark_attendance clock prn st)) = history st ++ calls
    ∧ same_setup st (snd (mark_attendance clock prn st))
    ∧ ((fst (mark_attendance clock prn st) = Marked
        ∧ ∃ l who status,
            get_current_lecture clock = Some l
            ∧ PyStr.strip prn ≠ EmptyString
            ∧ students_data st !! PyStr.strip prn = Some who
            ∧ attendance who !! l = Some status
            ∧ is_present status = false
            ∧ marked_step (PyStr.strip prn) l who st
                (snd (mark_attendance clock prn st)) calls)
       ∨ (fst (mark_attendance clock prn st) ≠ Marked
          ∧ failed_step st (snd (mark_attendance clock prn st)) calls)).
Proof.
  unfold mark_attendance.
  destruct (get_current_lecture clock) as [l|] eqn:Hl.
  2: { no_call. }
  destruct (decide (PyStr.strip prn = EmptyString)) as [Hp|Hp].
  { no_call. }
  destruct (students_data st !! PyStr.strip prn) as [who|] eqn:Hwho.
  2: { no_call. }
  destruct (attendance who !! l) as [status|] eqn:Hst.
  2: { no_call. }
  destruct (is_present status) eqn:Hpres.
  { no_call. }
  destruct (write_through_spec (PyStr.strip prn) l who st)
    as (calls & Hh & Hsame & [[Hm Hstep]|(Hm & _ & Hstep)]).
  - exists calls. split; [done|]. split; [done|]. left. split; [done|].
    exists l, who, status. done.
  - exists calls. split; [done|]. split; [done|]. right. done.
Qed.

(** A student already present: nothing is called, nothing is written. *)
Lemma mark_attendance_present clock prn st l who status :
  get_current_lecture clock = Some l →
  PyStr.strip prn ≠ EmptyString →
  students_data st !! PyStr.strip prn = Some who →
  attendance who !! l = Some status →
  is_present status = true →
  mark_attendance clock prn st
  = (AlreadyPresent,
     show_message ("Already marked present: " +:+ py_str (name who)) ColError st).
Proof.
  intros Hl Hp Hwho Hst Hpres. unfold mark_attendance.
  rewrite Hl. destruct (decide (PyStr.strip prn = EmptyString)); [done|].
  rewrite Hwho, Hst, Hpres. reflexivity.
Qed.

(** The three worksheet calls return: the student is marked. *)
Lemma mark_attendance_marks clock prn st l who status c1 c2 sh1 sh2 sh3 :
  get_current_lecture clock = Some l →
  PyStr.strip prn ≠ EmptyString →
  students_data st !! PyStr.strip prn = Some who →
  attendance who !! l = Some status →
  is_present status = false →
  ws_find (PyStr.strip prn) (sheet st) = (Ok (Some c1), sh1) →
  ws_find l sh1 = (Ok (Some c2), sh2) →
  ws_update_cell (row c1) (col c2) "Present" sh2 = (Ok (), sh3) →
  fst (mark_attendance clock prn st) = Marked
  ∧ sheet (snd (mark_attendance clock prn st)) = sh3
  ∧ students_data (snd (mark_attendance clock prn st))
    = set_present (PyStr.strip prn) l who (students_data st)
  ∧ history (snd (mark_attendance clock prn st))
    = history st ++ [CallFind (PyStr.strip prn) true; CallFind l true;
                     CallUpdateCell (row c1) (col c2) "Present" true;
                     SetAttendance (PyStr.strip prn) l].
Proof.
  intros Hl Hp Hwho Hst Hpres H1 H2 H3. unfold mark_attendance.
  rewrite Hl. destruct (decide (PyStr.strip prn = EmptyString)); [done|].
  rewrite Hwho, Hst, Hpres. unfold write_through. rewrite H1. cbn.
  rewrite H2. cbn. rewrite H3. cbn. rewrite <- !app_assoc. done.
Qed.

Lemma writes_app h1 h2 : writes (h1 ++ h2) = writes h1 + writes h2.
Proof. unfold writes. now rewrite List.filter_app, length_app. Qed.

Lemma set_present_lookup prn l who data :
  set_present prn l who data !! prn
  = Some {| name := name who;
            attendance := <[l := VStr "Present"]> (attendance who) |}.
Proof. unfold set_present. apply lookup_insert_eq. Qed.

Lemma set_present_other prn l who data q :
  q ≠ prn → set_present prn l who data !! q = data !! q.
Proof. intros Hq. unfold set_present. now apply lookup_insert_ne. Qed.

End Marking.

(** C1 (as amended). For a PRN whose stripped form is non-empty and known to
    the directory, whose entry for the active lecture is not ['Present'], and
    for which the three worksheet calls return, two calls of
    [mark_attendance] in the same lecture end in [Marked] and then in
    [AlreadyPresent]; the second call makes no worksheet call, and the two
    calls together make exactly one [update_cell] call. *)
Theorem mark_twice_marked_then_duplicate {S E : Type} `{!Worksheet S}
    (clock1 clock2 : datetime) (prn : string) (st : system S E)
    (l : string) (who : student) (status : value) (c1 c2 : cell)
    (sh1 sh2 sh3 : S) :
  get_current_lecture clock1 = Some l →
  get_current_lecture clock2 = Some l →
  PyStr.strip prn ≠ EmptyString →
  students_data st !! PyStr.strip prn = Some who →
  attendance who !! l = Some status →
  is_present status = false →
  ws_find (PyStr.strip prn) (sheet st) = (Ok (Some c1), sh1) →
  ws_find l sh1 = (Ok (Some c2), sh2) →
  ws_update_cell (row c1) (col c2) "Present" sh2 = (Ok (), sh3) →
  let first := mark_attendance clock1 prn st in
  let second := mark_attendance clock2 prn (snd first) in
  fst first = Marked
  ∧ fst second = AlreadyPresent
  ∧ history (snd second) = history (snd first)
  ∧ sheet (snd second) = sheet (snd first)
  ∧ writes (history (snd second)) = writes (history st) + 1.
Proof.
  intros Hl1 Hl2 Hp Hwho Hst Hpres H1 H2 H3 first second.
  destruct (mark_attendance_marks clock1 prn st l who status c1 c2 sh1 sh2 sh3
              Hl1 Hp Hwho Hst Hpres H1 H2 H3) as (Hm & Hsh & Hdata & Hhist).
  fold first in Hm, Hsh, Hdata, Hhist.
  assert (Hsecond : second
    = (AlreadyPresent,
       show_message ("Already marked present: " +:+ py_str (name who))
         ColError (snd first))).
  { unfold second.
    eapply (mark_attendance_present clock2 prn (snd first) l
              {| name := name who;
                 attendance := <[l := VStr "Present"]> (attendance who) |});
      try done.
    - rewrite Hdata. apply set_present_lookup.
    - cbn. apply lookup_insert_eq.
    - reflexivity. }
  rewrite Hsecond. cbn [fst snd show_message history sheet].
  repeat split; try done.
  rewrite Hhist, writes_app. reflexivity.
Qed.

Lemma mark_twice_marked_then_duplicate_witness :
  let st := loaded class_sheet in
  let first := mark_attendance (at_time 8 30) " A1 " st in
  let second := mark_attendance (at_time 8 45) " A1 " (snd first) in
  fst first = Marked ∧ fst second = AlreadyPresent
  ∧ writes (history (snd second)) = 1.
Proof.
  intros st first second.
  edestruct (mark_twice_marked_then_duplicate (at_time 8 30) (at_time 8 45)
               " A1 " (loaded class_sheet) "Lecture1")
    as (Hm & Hd & _ & _ & Hw).
  - vm_compute; reflexivity.
  - vm_compute; reflexivity.
  - vm_compute; discriminate.
  - vm_compute; reflexivity.
  - vm_compute; reflexivity.
  - vm_compute; reflexivity.
  - vm_compute; reflexivity.
  - vm_compute; reflexivity.
  - vm_compute; reflexivity.
  - split; [exact Hm|]. split; [exact Hd|]. exact Hw.
Defined.

(** C1 as stated fails: a student known to the directory who is already
    present gets [AlreadyPresent] on the first call, not [Marked]. *)
Lemma known_subject_not_always_marked :
  ¬ (∀ (st : system Grid.t Vec.t) (clock : datetime) (prn l : string),
       is_Some (students_data st !! prn) →
       get_current_lecture clock = Some l →
       fst (mark_attendance clock prn st) = Marked
       ∧ fst (mark_attendance clock prn (snd (mark_attendance clock prn st)))
         = AlreadyPresent).
Proof.
  intros H.
  destruct (H (loaded class_sheet) (at_time 8 30) "A2" "Lecture1") as [Hm _].
  - vm_compute. eauto.
  - vm_compute; reflexivity.
  - vm_compute in Hm. discriminate.
Qed.

(** C3. In every run of [mark_attendance] the in-place update of the student
    comes only after an [update_cell] call that returned, never before one;
    and whenever the call does not end in [Marked] - a worksheet call raised,
    the PRN or the lecture column was not found - the directory is as it was
    before the call. *)
Theorem store_write_precedes_roster_update {S E : Type} `{!Worksheet S}
    (clock : datetime) (prn : string) (st : system S E) :
  ∃ calls,
    history (snd (mark_attendance clock prn st)) = history st ++ calls
    ∧ (∀ i p l, calls !! i = Some (SetAttendance p l) →
         ∃ j r c, i = Datatypes.S j
                  ∧ calls !! j = Some (CallUpdateCell r c "Present" true))
    ∧ (∀ i j p l r c v ok,
         calls !! i = Some (SetAttendance p l) →
         calls !! j = Some (CallUpdateCell r c v ok) → j < i)
    ∧ (fst (mark_attendance clock prn st) ≠ Marked →
       students_data (snd (mark_attendance clock prn st)) = students_data st)
    ∧ (Exists (λ ev, is_failed_call ev = true) calls →
       students_data (snd (mark_attendance clock prn st)) = students_data st)
    ∧ (fst (mark_attendance clock prn st) = NotInSheet
       ∨ (∃ e, fst (mark_attendance clock prn st) = MarkError e) →
       students_data (snd (mark_attendance clock prn st)) = students_data st).
Proof.
  destruct (mark_attendance_spec clock prn st)
    as (calls & Hh & _ & [(Hm & l & who & status & _ & _ & _ & _ & _ & Hstep)
                         |(Hm & Hdata & Hno & _)]).
  - destruct Hstep as (r & c & -> & Hdata).
    exists [CallFind (PyStr.strip prn) true; CallFind l true;
            CallUpdateCell r c "Present" true; SetAttendance (PyStr.strip prn) l].
    split; [exact Hh|]. split; [|split; [|split; [|split]]].
    + intros [|[|[|[|i]]]] p l' Hi; try discriminate. eauto.
    + intros [|[|[|[|i]]]] [|[|[|[|j]]]] p l' r' c' v ok Hi Hj;
        try discriminate; lia.
    + intros Hne. contradiction.
    + intros Hex. apply Exists_exists in Hex as (ev & Hin & Hev).
      repeat (apply elem_of_cons in Hin as [->|Hin]; [discriminate|]).
      apply elem_of_nil in Hin. contradiction.
    + rewrite Hm. intros [Hn|[e He]]; discriminate.
  - exists calls. split; [exact Hh|]. split; [|split; [|split; [|split]]].
    + intros i p l Hi. apply list_elem_of_lookup_2 in Hi.
      rewrite Forall_forall in Hno. apply Hno in Hi. discriminate.
    + intros i j p l r c v ok Hi _. apply list_elem_of_lookup_2 in Hi.
      rewrite Forall_forall in Hno. apply Hno in Hi. discriminate.
    + intros _. exact Hdata.
    + intros _. exact Hdata.
    + intros _. exact Hdata.
Qed.

(** C7. A call of [mark_attendance] that ends in [Marked] in lecture [s1]
    sets the student's entry for [s1] to ['Present'], leaves the student's
    entry for every other lecture as it was, and leaves every other student
    of the directory as it was. *)
Theorem mark_attendance_frame {S E : Type} `{!Worksheet S}
    (clock : datetime) (prn : string) (st : system S E) (s1 : string) :
  get_current_lecture clock = Some s1 →
  fst (mark_attendance clock prn st) = Marked →
  (∃ who who',
     students_data st !! PyStr.strip prn = Some who
     ∧ students_data (snd (mark_attendance clock prn st)) !! PyStr.strip prn
       = Some who'
     ∧ name who' = name who
     ∧ attendance who' !! s1 = Some (VStr "Present")
     ∧ ∀ s2, s1 ≠ s2 → attendance who' !! s2 = attendance who !! s2)
  ∧ (∀ q, q ≠ PyStr.strip prn →
       students_data (snd (mark_attendance clock prn st)) !! q
       = students_data st !! q).
Proof.
  intros Hl Hm.
  destruct (mark_attendance_spec clock prn st)
    as (calls & _ & _ & [(_ & l & who & status & Hl' & _ & Hwho & _ & _ & Hstep)
                        |(Hne & _)]); [|contradiction].
  rewrite Hl in Hl'. injection Hl' as <-.
  destruct Hstep as (r & c & _ & Hdata). rewrite Hdata. split.
  - eexists who, _. split; [exact Hwho|]. split; [apply set_present_lookup|].
    cbn. split; [reflexivity|]. split; [apply lookup_insert_eq|].
    intros s2 Hs. now apply lookup_insert_ne.
  - intros q Hq. now apply set_present_other.
Qed.

Lemma mark_attendance_frame_witness :
  let st := loaded class_sheet in
  let st' := snd (mark_attendance (at_time 8 30) "A1" st) in
  students_data st' !! "A2" = students_data st !! "A2".
Proof.
  intros st st'.
  destruct (mark_attendance_frame (at_time 8 30) "A1" (loaded class_sheet)
              "Lecture1") as [_ Hother].
  - vm_compute; reflexivity.
  - vm_compute; reflexivity.
  - apply Hother. vm_compute. discriminate.
Defined.

(** ** Facts about loading *)

Section Loading.
Context {S E : Type} `{!Worksheet S} `{!FaceLib E}.
Implicit Type st : system S E.

Lemma lecture_keys : map lecture_key lecture_range = session_ids.
Proof. vm_compute. reflexivity. Qed.

(** A dict comprehension over [range(1, 9)] has every key it ranges over. *)
Lemma comprehension_lookup (g : nat → value) (l : list nat)
    (d : gmap string value) (k : string) :
  k ∈ map lecture_key l ∨ is_Some (d !! k) →
  is_Some (foldl (λ d i, <[lecture_key i := g i]> d) d l !! k).
Proof.
  revert d. induction l as [|i l IH]; intros d Hk; cbn [foldl map] in *.
  - destruct Hk as [Hk|Hk]; [|exact Hk]. apply elem_of_nil in Hk. contradiction.
  - apply IH. destruct Hk as [Hk|Hk].
    + apply elem_of_cons in Hk as [->|Hk]; [|now left].
      right. rewrite lookup_insert_eq. eauto.
    + right. rewrite lookup_insert_is_Some. destruct (decide (lecture_key i = k)); auto.
Qed.

Lemma absent_attendance_complete r : complete_attendance (absent_attendance r).
Proof.
  intros l Hl. unfold absent_attendance.
  apply (comprehension_lookup (λ _, VStr "Absent")). left. now rewrite lecture_keys.
Qed.

Lemma sheet_attendance_complete r : complete_attendance (sheet_attendance r).
Proof.
  intros l Hl. unfold sheet_attendance.
  apply (comprehension_lookup
           (λ i, default (VStr "Absent") (r !! lecture_key i))).
  left. now rewrite lecture_keys.
Qed.

Lemma complete_records_empty : complete_records ∅.
Proof. intros prn who Hwho. rewrite lookup_empty in Hwho. discriminate. Qed.

Lemma complete_records_insert prn who (data : roster) :
  complete_attendance (attendance who) → complete_records data →
  complete_records (<[prn := who]> data).
Proof.
  intros Hwho Hdata q who' Hq.
  destruct (decide (prn = q)) as [->|Hne].
  - rewrite lookup_insert_eq in Hq. now injection Hq as <-.
  - rewrite lookup_insert_ne in Hq by assumption. eapply Hdata; eauto.
Qed.

Lemma load_records_complete mk records (data : roster) :
  (∀ r, complete_attendance (mk r)) → complete_records data →
  complete_records (fst (load_records mk records data)).
Proof.
  intros Hmk. revert data.
  induction records as [|r records IH]; intros data Hdata; cbn [load_records].
  - exact Hdata.
  - destruct (r !! "PRN") as [p|]; [|exact Hdata].
    destruct (r !! "RName") as [nm|]; [|exact Hdata].
    apply IH. apply complete_records_insert; [apply Hmk|exact Hdata].
Qed.

(** Records that all carry the two fields are all loaded, each under the
    text of its PRN. *)
Lemma load_records_all mk records (data : roster) :
  Forall has_fields records →
  ∃ d, load_records mk records data = (d, None)
       ∧ ∀ prn, is_Some (d !! prn) ↔
                is_Some (data !! prn)
                ∨ ∃ r p, r ∈ records ∧ r !! "PRN" = Some p ∧ py_str p = prn.
Proof.
  intros Hall. revert data.
  induction Hall as [|r records [[p Hp] [nm Hnm]] _ IH]; intros data.
  - exists data. split; [reflexivity|]. intros prn. split; [auto|].
    intros [Hd|(r & p & Hr & _)]; [exact Hd|].
    apply elem_of_nil in Hr. contradiction.
  - cbn [load_records]. rewrite Hp, Hnm.
    destruct (IH (<[py_str p := {| name := nm; attendance := mk r |}]> data))
      as (d & Hd & Hiff).
    exists d. split; [exact Hd|]. intros prn. rewrite Hiff.
    rewrite lookup_insert_is_Some. split.
    + intros [[Heq|[_ Hold]]|(r' & p' & Hr' & Hp' & Hs)].
      * right. exists r, p. split; [apply list_elem_of_here|]. auto.
      * now left.
      * right. exists r', p'. split; [now apply list_elem_of_further|]. auto.
    + intros [Hold|(r' & p' & Hr' & Hp' & Hs)].
      * left. destruct (decide (py_str p = prn)); auto.
      * apply elem_of_cons in Hr' as [->|Hr'].
        -- left. left. rewrite Hp in Hp'. now injection Hp' as <-.
        -- right. exists r', p'. auto.
Qed.

(** The loop stops at the first record that lacks a field, keeping what the
    records before it gave. *)
Lemma load_records_stops mk pre bad post (data : roster) :
  Forall has_fields pre → ¬ has_fields bad →
  ∃ d e, load_records mk (pre ++ bad :: post) data = (d, Some e)
         ∧ load_records mk pre data = (d, None).
Proof.
  intros Hpre Hbad. revert data.
  induction Hpre as [|r pre [[p Hp] [nm Hnm]] _ IH]; intros data.
  - cbn [List.app load_records].
    destruct (bad !! "PRN") as [p|] eqn:Hp; [|eauto].
    destruct (bad !! "RName") as [nm|] eqn:Hnm; [|eauto].
    exfalso. apply Hbad. split; eauto.
  - cbn [List.app load_records]. rewrite Hp, Hnm. apply IH.
Qed.


(** The three ways [update_attendance_from_sheet] ends. *)
Lemma refresh_raise st e sh :
  ws_get_all_records (sheet st) = (Raise e, sh) →
  fst (update_attendance_from_sheet st) = RefreshError e
  ∧ students_data (snd (update_attendance_from_sheet st)) = students_data st.
Proof. intros Hr. unfold update_attendance_from_sheet. rewrite Hr. done. Qed.

Lemma refresh_ok st records sh :
  ws_get_all_records (sheet st) = (Ok records, sh) →
  students_data (snd (update_attendance_from_sheet st))
  = fst (load_records sheet_attendance records ∅)
  ∧ fst (update_attendance_from_sheet st)
    = match snd (load_records sheet_attendance records ∅) with
      | Some e => RefreshError e
      | None => Refreshed
      end.
Proof.
  intros Hr. unfold update_attendance_from_sheet. rewrite Hr.
  destruct (load_records sheet_attendance records ∅) as [d [e|]]; done.
Qed.

Lemma refresh_complete st :
  complete_records (students_data st) →
  complete_records (students_data (snd (update_attendance_from_sheet st))).
Proof.
  intros Hst.
  destruct (ws_get_all_records (sheet st)) as [[records|e] sh] eqn:Hr.
  - destruct (refresh_ok st records sh Hr) as [-> _].
    apply load_records_complete;
      [apply sheet_attendance_complete|apply complete_records_empty].
  - destruct (refresh_raise st e sh Hr) as [_ ->]. exact Hst.
Qed.

Lemma setup_complete st :
  complete_records (students_data (snd (setup_student_data st))).
Proof.
  unfold setup_student_data. cbn.
  destruct (ws_get_all_records (sheet st)) as [[records|e] sh] eqn:Hr; cbn.
  2: { apply complete_records_empty. }
  pose proof (load_records_complete absent_attendance records ∅
                absent_attendance_complete complete_records_empty) as Hc.
  destruct (load_records absent_attendance records ∅) as [d [e|]];
    cbn [fst] in Hc; cbn [snd].
  - cbn. exact Hc.
  - apply refresh_complete. cbn. exact Hc.
Qed.

End Loading.

(** ** Facts about a frame of probes *)

Section Batch.
Context {S E : Type} `{!Worksheet S} `{!FaceLib E}.
Implicit Type st : system S E.

Lemma set_present_complete prn l who (data : roster) :
  data !! prn = Some who → complete_records data →
  complete_records (set_present prn l who data).
Proof.
  intros Hwho Hdata. unfold set_present.
  apply complete_records_insert; [|exact Hdata].
  intros k Hk. cbn. rewrite lookup_insert_is_Some.
  destruct (decide (l = k)); [now left|right]. split; [assumption|].
  eapply Hdata; eauto.
Qed.

Lemma mark_attendance_complete clock prn st :
  complete_records (students_data st) →
  complete_records (students_data (snd (mark_attendance clock prn st))).
Proof.
  intros Hst.
  destruct (mark_attendance_spec clock prn st)
    as (calls & _ & _ & [(_ & l & who & status & _ & _ & Hwho & _ & _ & Hstep)
                        |(_ & Hdata & _)]).
  - destruct Hstep as (r & c & _ & ->). now apply set_present_complete.
  - now rewrite Hdata.
Qed.

Lemma mark_attendance_same_setup clock prn st :
  same_setup st (snd (mark_attendance clock prn st)).
Proof. destruct (mark_attendance_spec clock prn st) as (? & _ & Hs & _). exact Hs. Qed.

(** A property of states that [mark_attendance] keeps is kept by the loops
    built on it. *)
Section Kept.
Variable P : system S E → Prop.
Hypothesis mark_keeps :
  ∀ clock prn st, P st → P (snd (mark_attendance clock prn st)).

Lemma mark_matches_keeps clock matches st :
  P st → P (snd (mark_matches clock matches st)).
Proof.
  revert st. induction matches as [|prn matches IH]; intros st Hst;
    cbn [mark_matches]; [exact Hst|].
  pose proof (mark_keeps clock prn st Hst) as Hk.
  destruct (mark_attendance clock prn st) as [o st1]. cbn [snd] in Hk.
  destruct o; try (apply IH; exact Hk). exact Hk.
Qed.

Lemma match_faces_keeps clock probes st :
  P st → P (snd (match_faces clock probes st)).
Proof.
  revert st. induction probes as [|probe probes IH]; intros st Hst;
    cbn [match_faces]; [exact Hst|].
  destruct (find_matches tolerance (face_encodings st) probe []) as [ms|e];
    [|exact Hst].
  pose proof (mark_matches_keeps clock ms st Hst) as Hk.
  destruct (mark_matches clock ms st) as [[e|] st1]; cbn [snd] in Hk.
  - exact Hk.
  - apply IH. exact Hk.
Qed.

End Kept.

Lemma match_faces_same_setup clock probes st :
  same_setup st (snd (match_faces clock probes st)).
Proof.
  apply (match_faces_keeps (λ st', same_setup st st')); [|done].
  intros c p st' [H1 H2].
  destruct (mark_attendance_same_setup c p st') as [H3 H4].
  split; congruence.
Qed.


Lemma toggle_students cam st :
  students_data (toggle_face_recognition cam st) = students_data st
  ∧ history (toggle_face_recognition cam st) = history st
  ∧ sheet (toggle_face_recognition cam st) = sheet st.
Proof.
  unfold toggle_face_recognition.
  destruct (negb (face_recognition_active st)); [|done].
  destruct (decide (length (face_encodings st) = 0)); [done|].
  destruct cam; done.
Qed.

Lemma toggle_active cam st :
  face_recognition_active st = true →
  face_recognition_active (toggle_face_recognition cam st) = false
  ∧ text (msg (toggle_face_recognition cam st)) = "Face recognition deactivated".
Proof. intros Ha. unfold toggle_face_recognition. rewrite Ha. done. Qed.

Lemma process_students clock cam probes st :
  students_data (process_face_recognition clock cam probes st)
  = students_data (snd (match_faces clock probes st))
  ∨ students_data (process_face_recognition clock cam probes st)
    = students_data st.
Proof.
  unfold process_face_recognition.
  destruct (face_recognition_active st) eqn:Ha; cbn [negb]; [|now right].
  left. destruct (match_faces clock probes st) as [[e|] st1]; cbn [snd]; [|done].
  now destruct (toggle_students cam
         (show_message ("Face recognition error: " +:+ exn_str e) ColError st1))
    as [-> _].
Qed.

Lemma match_faces_app clock before rest st :
  match_faces clock (before ++ rest) st
  = match match_faces clock before st with
    | (Some e, st1) => (Some e, st1)
    | (None, st1) => match_faces clock rest st1
    end.
Proof.
  revert st. induction before as [|probe before IH]; intros st;
    cbn [List.app match_faces]; [reflexivity|].
  destruct (find_matches tolerance (face_encodings st) probe []) as [ms|e];
    [|reflexivity].
  destruct (mark_matches clock ms st) as [[e|] st1]; [reflexivity|apply IH].
Qed.

End Batch.




(** C5 (as amended). [update_attendance_from_sheet] skips no record and
    reports none: when every record carries the PRN and the name field, the
    refresh succeeds and the directory has a student under the text of every
    record's PRN, the empty text included; when a record lacks one of the two
    fields, the refresh ends in its error handler with the students of the
    records before it. *)
Theorem refresh_loads_every_record {S E : Type} `{!Worksheet S}
    (st : system S E) (records : list record) (sh : S) :
  ws_get_all_records (sheet st) = (Ok records, sh) →
  (Forall has_fields records →
   fst (update_attendance_from_sheet st) = Refreshed
   ∧ ∀ prn,
       is_Some (students_data (snd (update_attendance_from_sheet st)) !! prn)
       ↔ ∃ r p, r ∈ records ∧ r !! "PRN" = Some p ∧ py_str p = prn)
  ∧ (∀ pre bad post,
       records = pre ++ bad :: post →
       Forall has_fields pre → ¬ has_fields bad →
       (∃ e, fst (update_attendance_from_sheet st) = RefreshError e)
       ∧ load_records sheet_attendance pre ∅
         = (students_data (snd (update_attendance_from_sheet st)), None)).
Proof.
  intros Hr. destruct (refresh_ok st records sh Hr) as [Hdata Hout].
  rewrite Hdata, Hout. split.
  - intros Hall.
    destruct (load_records_all sheet_attendance records ∅ Hall) as (d & Hd & Hiff).
    rewrite Hd. cbn [fst snd]. split; [reflexivity|].
    intros prn. rewrite Hiff. rewrite lookup_empty. split.
    + intros [[? Hx]|Hx]; [discriminate|exact Hx].
    + auto.
  - intros pre bad post -> Hpre Hbad.
    destruct (load_records_stops sheet_attendance pre bad post ∅ Hpre Hbad)
      as (d & e & Hd & Hpre').
    rewrite Hd. cbn [fst snd]. split; [eauto|exact Hpre'].
Qed.

Lemma refresh_loads_every_record_witness :
  let st := start gap_sheet ∅ [] false in
  fst (update_attendance_from_sheet st) = Refreshed
  ∧ is_Some (students_data (snd (update_attendance_from_sheet st)) !! "").
Proof.
  intros st.
  destruct (Grid.get_all_records gap_sheet) as [[records|e] sh] eqn:Hr;
    [|vm_compute in Hr; discriminate].
  destruct (refresh_loads_every_record st records sh) as [Hall _];
    [exact Hr|].
  assert (Hrec : records
                 = [Grid.row_record header
                      ["A1"; "Alice"; ""; ""; ""; ""; ""; ""; ""; ""];
                    Grid.row_record header
                      [""; "Bob"; ""; ""; ""; ""; ""; ""; ""; ""]]).
  { vm_compute in Hr. injection Hr as <- _. vm_compute. reflexivity. }
  destruct Hall as [Hok Hiff].
  - rewrite Hrec. repeat constructor; vm_compute; eauto.
  - split; [exact Hok|]. apply Hiff.
    exists (Grid.row_record header [""; "Bob"; ""; ""; ""; ""; ""; ""; ""; ""]),
           (VStr "").
    rewrite Hrec. split; [apply list_elem_of_further, list_elem_of_here|].
    split; vm_compute; reflexivity.
Defined.

(** C5 as stated fails: a record with an empty PRN among well-formed ones is
    not skipped; loading with it differs from loading without it. *)
Lemma empty_identifier_is_loaded :
  ¬ (∀ (good bad : record),
       has_fields good → bad !! "PRN" = Some (VStr "") →
       fst (load_records sheet_attendance [good; bad] ∅)
       = fst (load_records sheet_attendance [good] ∅)).
Proof.
  intros H.
  specialize (H (Grid.row_record header
                   ["A1"; "Alice"; ""; ""; ""; ""; ""; ""; ""; ""])
                (Grid.row_record header
                   [""; "Bob"; ""; ""; ""; ""; ""; ""; ""; ""])).
  assert (Hx := f_equal (λ d : roster, bool_decide (is_Some (d !! "")))
                  (H ltac:(split; vm_compute; eauto)
                     ltac:(vm_compute; reflexivity))).
  vm_compute in Hx. discriminate.
Qed.




(** C9 (as amended). A known encoding that the library cannot compare with a
    probe ends the whole frame: nothing is marked for that probe, the probes
    after it are not looked at, what the probes before it marked stands, and
    face recognition is switched off. *)
Theorem comparison_error_ends_frame {S E : Type} `{!Worksheet S} `{!FaceLib E}
    (clock : datetime) (cam : bool) (before after : list E) (probe : E)
    (st st1 : system S E) (prn : string) (known : E) (e : exn) :
  face_recognition_active st = true →
  match_faces clock before st = (None, st1) →
  (prn, known) ∈ face_encodings st →
  face_distance known probe = Raise e →
  let st' :=
    process_face_recognition clock cam (before ++ probe :: after) st in
  face_recognition_active st' = false
  ∧ students_data st' = students_data st1
  ∧ history st' = history st1
  ∧ sheet st' = sheet st1
  ∧ text (msg st') = "Face recognition deactivated".
Proof.
  intros Ha Hbefore Hin Hraise st'. subst st'.
  unfold process_face_recognition. rewrite Ha. cbn [negb].
  rewrite match_faces_app, Hbefore. cbn [match_faces].
  pose proof (match_faces_same_setup clock before st) as [Henc Hact].
  rewrite Hbefore in Henc, Hact. cbn [snd] in Henc, Hact.
  rewrite <- Henc in Hin.
  destruct (find_matches_raises tolerance (face_encodings st1) probe [] prn
              known e Hin Hraise) as [e' ->].
  set (st2 := show_message ("Face recognition error: " +:+ exn_str e')
                ColError st1).
  assert (Ha2 : face_recognition_active st2 = true) by (cbn; congruence).
  destruct (toggle_active cam st2 Ha2) as [-> ->].
  destruct (toggle_students cam st2) as (-> & -> & ->). done.
Qed.

Lemma comparison_error_ends_frame_witness :
  let st := watching [("A2", [0; 0; 0]%float); ("A1", [1; 2]%float)] in
  let st' :=
    process_face_recognition (at_time 8 30) true
      ([] ++ [1; 2]%float :: [[1; 2]%float]) st in
  face_recognition_active st' = false ∧ students_data st' = students_data st.
Proof.
  intros st st'.
  edestruct (comparison_error_ends_frame (at_time 8 30) true []
               [[1; 2]%float] ([1; 2]%float : Vec.t) st st "A2"
               ([0; 0; 0]%float : Vec.t))
    as (Hoff & Hdata & _).
  - reflexivity.
  - reflexivity.
  - apply list_elem_of_here.
  - vm_compute. reflexivity.
  - split; [exact Hoff|exact Hdata].
Defined.

(** C9 as stated fails: with a known encoding of another length among the
    known encodings, the probe that equals Alice's encoding marks nobody and
    face recognition goes off, while without that encoding the same probe
    marks Alice. *)
Lemma wrong_length_encoding_stops_frame :
  let alice := ("A1", [1; 2]%float : Vec.t) in
  let odd := ("A2", [0; 0; 0]%float : Vec.t) in
  let probes := [([1; 2]%float : Vec.t)] in
  let with_odd :=
    process_face_recognition (at_time 8 30) true probes (watching [alice; odd]) in
  let without :=
    process_face_recognition (at_time 8 30) true probes (watching [alice]) in
  (∃ who, students_data without !! "A1" = Some who
          ∧ attendance who !! "Lecture1" = Some (VStr "Present"))
  ∧ face_recognition_active without = true
  ∧ students_data with_odd = students_data (watching [alice; odd])
  ∧ history with_odd = []
  ∧ face_recognition_active with_odd = false.
Proof.
  cbv zeta. split.
  - eexists. split; vm_compute; reflexivity.
  - repeat split; vm_compute; reflexivity.
Qed.

Lemma store_write_precedes_roster_update_witness :
  let st :=
    start {| Grid.cells := Grid.cells class_sheet;
             Grid.outages := [false; false; true] |}
          (students_data (loaded class_sheet)) [] false in
  students_data (snd (mark_attendance (at_time 8 30) "A1" st))
  = students_data st.
Proof.
  intros st.
  destruct (store_write_precedes_roster_update (at_time 8 30) "A1" st)
    as (calls & _ & _ & _ & Hkeep & _).
  apply Hkeep. vm_compute. discriminate.
Defined.

(** ** Facts about typed entry *)

Section StringFacts.

Lemma append_cons c s t : String c s +:+ t = String c (s +:+ t).
Proof. reflexivity. Qed.

Lemma append_empty_l t : EmptyString +:+ t = t.
Proof. reflexivity. Qed.

Lemma rev_onto_onto s acc t :
  PyStr.rev_onto (PyStr.rev_onto s acc) t = PyStr.rev_onto acc (s +:+ t).
Proof.
  revert acc t. induction s as [|c s IH]; intros acc t;
    cbn [PyStr.rev_onto]; [now rewrite append_empty_l|].
  rewrite IH, append_cons. reflexivity.
Qed.

Lemma append_empty_r s : s +:+ EmptyString = s.
Proof.
  induction s as [|c s IH]; [reflexivity|]. now rewrite append_cons, IH.
Qed.

Lemma rev_rev s : PyStr.rev (PyStr.rev s) = s.
Proof.
  unfold PyStr.rev. rewrite rev_onto_onto. cbn [PyStr.rev_onto].
  apply append_empty_r.
Qed.

Lemma length_rev_onto s acc :
  String.length (PyStr.rev_onto s acc) = String.length s + String.length acc.
Proof.
  revert acc. induction s as [|c s IH]; intros acc;
    cbn [PyStr.rev_onto String.length]; [reflexivity|].
  rewrite IH. cbn [String.length]. lia.
Qed.

Lemma length_rev s : String.length (PyStr.rev s) = String.length s.
Proof. unfold PyStr.rev. rewrite length_rev_onto. cbn. lia. Qed.

Lemma length_append s t :
  String.length (s +:+ t) = String.length s + String.length t.
Proof.
  induction s as [|c s IH]; [reflexivity|].
  rewrite append_cons. cbn [String.length]. now rewrite IH.
Qed.

Lemma length_drop_last s :
  String.length (PyStrOps.drop_last s) = String.length s - 1.
Proof.
  unfold PyStrOps.drop_last. rewrite <- (length_rev s).
  destruct (PyStr.rev s) as [|c r]; [reflexivity|].
  rewrite length_rev. cbn. lia.
Qed.

Lemma all_alnum_rev_onto s acc :
  PyStrOps.all_alnum (PyStr.rev_onto s acc)
  = PyStrOps.all_alnum s && PyStrOps.all_alnum acc.
Proof.
  revert acc. induction s as [|c s IH]; intros acc;
    cbn [PyStr.rev_onto PyStrOps.all_alnum]; [reflexivity|].
  rewrite IH. cbn [PyStrOps.all_alnum].
  destruct (PyStrOps.isalnum_char c), (PyStrOps.all_alnum s); reflexivity.
Qed.

(** A letter or a digit is not white space. *)
Lemma alnum_not_space c :
  PyStrOps.isalnum_char c = true → PyStr.isspace c = false.
Proof.
  unfold PyStrOps.isalnum_char, PyStr.isspace.
  generalize (PyStr.ord c). intros n H.
  apply orb_false_intro; apply andb_false_iff;
    rewrite !Nat.leb_gt;
    rewrite !orb_true_iff, !andb_true_iff, !Nat.leb_le in H; lia.
Qed.

Lemma lstrip_alnum s : PyStrOps.all_alnum s = true → PyStr.lstrip s = s.
Proof.
  destruct s as [|c s]; [reflexivity|]. cbn [PyStrOps.all_alnum PyStr.lstrip].
  intros H. apply andb_true_iff in H as [Hc _].
  now rewrite (alnum_not_space c Hc).
Qed.

(** Stripping leaves an alphanumeric string as it is. *)
Lemma strip_alnum s : PyStrOps.all_alnum s = true → PyStr.strip s = s.
Proof.
  intros H. unfold PyStr.strip, PyStr.rstrip.
  rewrite (lstrip_alnum s H).
  rewrite lstrip_alnum; [apply rev_rev|].
  unfold PyStr.rev. rewrite all_alnum_rev_onto, H. reflexivity.
Qed.

Lemma isalnum_all s : PyStrOps.isalnum s = true →
  PyStrOps.all_alnum s = true ∧ s ≠ EmptyString.
Proof. destruct s; [discriminate|]. intros H. split; [exact H|discriminate]. Qed.

End StringFacts.

Section Entry.
Context {S E : Type} `{!Worksheet S}.
Implicit Type st : system S E.

Lemma validate_prn_Some prn st p :
  fst (validate_prn prn st) = Some p →
  p = PyStr.strip prn ∧ PyStrOps.isalnum p = true
  ∧ is_Some (students_data st !! p) ∧ snd (validate_prn prn st) = st.
Proof.
  unfold validate_prn.
  destruct (PyStrOps.isalnum (PyStr.strip prn)) eqn:Ha; cbn [negb];
    [|discriminate].
  destruct (students_data st !! PyStr.strip prn) as [who|] eqn:Hw;
    [|discriminate].
  cbn. intros [= <-]. rewrite Hw. eauto.
Qed.

Lemma validate_prn_None prn st :
  fst (validate_prn prn st) = None →
  (PyStrOps.isalnum (PyStr.strip prn) = false
   ∨ students_data st !! PyStr.strip prn = None)
  ∧ ∃ txt, snd (validate_prn prn st) = show_message txt ColError st.
Proof.
  unfold validate_prn.
  destruct (PyStrOps.isalnum (PyStr.strip prn)) eqn:Ha; cbn [negb].
  - destruct (students_data st !! PyStr.strip prn) as [who|] eqn:Hw;
      [discriminate|]. cbn. eauto.
  - cbn. eauto.
Qed.

Lemma validate_prn_again p st :
  PyStrOps.isalnum p = true → is_Some (students_data st !! p) →
  validate_prn p st = (Some p, st).
Proof.
  intros Ha [who Hw]. destruct (isalnum_all p Ha) as [Hall _].
  unfold validate_prn. rewrite (strip_alnum p Hall), Ha, Hw. reflexivity.
Qed.

End Entry.

(** X1. [validate_prn] returns a PRN only when the stripped input is
    alphanumeric and a key of the directory; what it returns is that stripped
    input, it leaves the state untouched, and validating the returned PRN
    again returns it unchanged.  When it returns [None] the stripped input is
    not alphanumeric or not in the directory, and only the message has
    changed. *)
Theorem validate_prn_sound {S E : Type} (prn : string) (st : system S E) :
  (∀ p, fst (validate_prn prn st) = Some p →
     p = PyStr.strip prn ∧ PyStrOps.isalnum p = true
     ∧ is_Some (students_data st !! p)
     ∧ snd (validate_prn prn st) = st
     ∧ validate_prn p st = (Some p, st))
  ∧ (fst (validate_prn prn st) = None →
     (PyStrOps.isalnum (PyStr.strip prn) = false
      ∨ students_data st !! PyStr.strip prn = None)
     ∧ ∃ txt, snd (validate_prn prn st) = show_message txt ColError st).
Proof.
  split.
  - intros p Hp. destruct (validate_prn_Some prn st p Hp) as (H1 & H2 & H3 & H4).
    repeat split; try assumption. now apply validate_prn_again.
  - apply validate_prn_None.
Qed.

Lemma validate_prn_sound_witness :
  fst (validate_prn " A1 " (loaded class_sheet)) = Some "A1"
  ∧ validate_prn "A1" (loaded class_sheet) = (Some "A1", loaded class_sheet).
Proof.
  assert (H : fst (validate_prn " A1 " (loaded class_sheet)) = Some "A1")
    by (vm_compute; reflexivity).
  split; [exact H|].
  destruct (validate_prn_sound " A1 " (loaded class_sheet)) as [Hs _].
  destruct (Hs "A1" H) as (_ & _ & _ & _ & Hagain). exact Hagain.
Defined.

Section ManualEntry.
Context {S E : Type} `{!Worksheet S}.
Implicit Type st : system S E.

(** A PRN that is non-empty after stripping and known to the directory gets
    past the first gates of [mark_attendance]. *)
Lemma mark_attendance_known clock prn st :
  PyStr.strip prn ≠ EmptyString →
  is_Some (students_data st !! PyStr.strip prn) →
  fst (mark_attendance clock prn st) ≠ EmptyPRN
  ∧ fst (mark_attendance clock prn st) ≠ NotFound.
Proof.
  intros Hp [who Hw]. unfold mark_attendance.
  destruct (get_current_lecture clock) as [l|]; [|done].
  destruct (decide (PyStr.strip prn = EmptyString)); [done|].
  rewrite Hw. destruct (attendance who !! l) as [status|]; [|done].
  destruct (is_present status); [done|].
  unfold write_through.
  destruct (ws_find (PyStr.strip prn) (sheet st)) as [[[c1|]|e1] sh1];
    cbn; try done.
  destruct (ws_find l sh1) as [[[c2|]|e2] sh2]; cbn; try done.
  destruct (ws_update_cell (row c1) (col c2) "Present" sh2) as [[[]|e3] sh3];
    cbn; done.
Qed.

Lemma handle_manual_entry_input clock u st :
  input_text (fst (snd (handle_manual_entry clock u st))) = input_text u
  ∨ input_text (fst (snd (handle_manual_entry clock u st))) = EmptyString.
Proof.
  unfold handle_manual_entry.
  destruct (decide (input_text u = EmptyString)); [now left|].
  destruct (validate_prn (input_text u) st) as [[p|] st1]; [|now left].
  destruct (decide (p = EmptyString)); [now left|].
  destruct (mark_attendance clock p st1) as [o st2].
  destruct o; cbn; auto.
Qed.

End ManualEntry.

(** X2. [handle_manual_entry] calls [mark_attendance] only with the stripped,
    alphanumeric input that [validate_prn] accepted, so the call never ends at
    the empty-PRN or the unknown-PRN gate; the input box is cleared whenever
    that call returns, whatever it returns, and keeps its text when the call
    raises.  With nothing typed or a refused PRN nothing but the message
    changes: no worksheet call, the directory and the input box as they
    were. *)
Theorem manual_entry_outcomes {S E : Type} `{!Worksheet S}
    (clock : datetime) (u : ui) (st : system S E) :
  (∀ o, fst (handle_manual_entry clock u st) = Entered o →
     PyStrOps.isalnum (PyStr.strip (input_text u)) = true
     ∧ mark_attendance clock (PyStr.strip (input_text u)) st
       = (o, snd (snd (handle_manual_entry clock u st)))
     ∧ o ≠ EmptyPRN ∧ o ≠ NotFound
     ∧ input_text (fst (snd (handle_manual_entry clock u st)))
       = match o with
         | Uncaught _ => input_text u
         | _ => EmptyString
         end)
  ∧ (fst (handle_manual_entry clock u st) = NothingTyped
     ∨ fst (handle_manual_entry clock u st) = Rejected →
     fst (snd (handle_manual_entry clock u st)) = u
     ∧ students_data (snd (snd (handle_manual_entry clock u st)))
       = students_data st
     ∧ history (snd (snd (handle_manual_entry clock u st))) = history st
     ∧ sheet (snd (snd (handle_manual_entry clock u st))) = sheet st)
  ∧ (fst (handle_manual_entry clock u st) = NothingTyped
     ↔ input_text u = EmptyString).
Proof.
  unfold handle_manual_entry.
  destruct (decide (input_text u = EmptyString)) as [He|He].
  { cbn. split; [discriminate|]. split; [done|]. done. }
  destruct (validate_prn (input_text u) st) as [[p|] st1] eqn:Hv.
  2: { assert (Hn : fst (validate_prn (input_text u) st) = None)
         by now rewrite Hv.
       destruct (validate_prn_None _ _ Hn) as [_ [txt Htxt]].
       rewrite Hv in Htxt. cbn in Htxt. subst st1. cbn.
       split; [discriminate|]. split; [done|]. split; [discriminate|done]. }
  assert (Hs : fst (validate_prn (input_text u) st) = Some p) by now rewrite Hv.
  destruct (validate_prn_Some _ _ _ Hs) as (Hp & Ha & Hin & Hst).
  rewrite Hv in Hst. cbn in Hst. subst st1.
  destruct (isalnum_all p Ha) as [Hall Hne].
  destruct (decide (p = EmptyString)); [contradiction|].
  assert (Hstrip : PyStr.strip p = p) by now apply strip_alnum.
  assert (Hkn : fst (mark_attendance clock p st) ≠ EmptyPRN
                ∧ fst (mark_attendance clock p st) ≠ NotFound).
  { apply mark_attendance_known; rewrite Hstrip; assumption. }
  rewrite <- Hp.
  destruct (mark_attendance clock p st) as [o st2]. cbn [fst] in Hkn.
  destruct Hkn as [Hk1 Hk2].
  split; [|split].
  - intros o' Ho'.
    destruct o; cbn in Ho' |- *; injection Ho' as <-; repeat split; done.
  - intros [Hx|Hx]; destruct o; discriminate.
  - split; [destruct o; discriminate|contradiction].
Qed.

Lemma manual_entry_outcomes_witness :
  let u := {| active_input := true; input_text := " A1 ";
              scroll_offset := 0; screen_height := 800 |} in
  let r := handle_manual_entry (at_time 8 30) u (loaded class_sheet) in
  fst r = Entered Marked ∧ input_text (fst (snd r)) = EmptyString.
Proof.
  intros u r.
  assert (H : fst r = Entered Marked) by (vm_compute; reflexivity).
  split; [exact H|].
  destruct (manual_entry_outcomes (at_time 8 30) u (loaded class_sheet))
    as [He _].
  destruct (He Marked H) as (_ & _ & _ & _ & Hin). exact Hin.
Defined.

(** X3. While every key event carries at most one character, the text of the
    input box never grows beyond twelve characters, whatever keys are
    pressed; and a key pressed while the box is not active changes nothing. *)
Theorem input_stays_short {S E : Type} `{!Worksheet S}
    (clock : datetime) (k : key) (unicode : string) (u : ui)
    (st : system S E) :
  String.length unicode ≤ 1 →
  String.length (input_text u) ≤ 12 →
  String.length (input_text (fst (on_keydown clock k unicode u st))) ≤ 12
  ∧ (active_input u = false → on_keydown clock k unicode u st = (u, st)).
Proof.
  intros Hu Hlen. unfold on_keydown. split.
  - destruct (active_input u); [|exact Hlen]. destruct k.
    + destruct (handle_manual_entry_input clock u st) as [-> | ->];
        [exact Hlen|cbn; lia].
    + cbn. rewrite length_drop_last. lia.
    + destruct (decide (String.length (input_text u) < 12)); [|exact Hlen].
      cbn. rewrite length_append. lia.
  - intros ->. reflexivity.
Qed.

Lemma input_stays_short_witness :
  let u := {| active_input := true; input_text := "123456789012";
              scroll_offset := 0; screen_height := 800 |} in
  String.length
    (input_text (fst (on_keydown (at_time 8 30) K_OTHER "3" u
                        (loaded class_sheet)))) ≤ 12.
Proof.
  intros u.
  apply (input_stays_short (at_time 8 30) K_OTHER "3" u (loaded class_sheet));
    vm_compute; lia.
Defined.

(** ** Facts about the list and the message line *)

(** X4. After a wheel event the scroll offset is never positive and never
    below the smaller of zero and [max_scroll]; an event of another button
    leaves it alone. *)
Theorem wheel_keeps_scroll_in_range (button : nat) (data : roster) (u : ui) :
  (button = 4 ∨ button = 5 →
   (scroll_offset (on_wheel button data u) ≤ 0)%Z
   ∧ (Z.min 0 (- Z.of_nat (size data) * 40 + screen_height u - 470)
      ≤ scroll_offset (on_wheel button data u))%Z)
  ∧ (button ≠ 4 → button ≠ 5 → on_wheel button data u = u).
Proof.
  unfold on_wheel. split.
  - intros Hb. destruct (decide (button = 4 ∨ button = 5)); [|contradiction].
    cbn [with_scroll scroll_offset]. unfold wheel_scroll. lia.
  - intros H4 H5. destruct (decide (button = 4 ∨ button = 5)) as [[?|?]|?];
      [contradiction|contradiction|reflexivity].
Qed.

Lemma wheel_keeps_scroll_in_range_witness :
  let u := {| active_input := false; input_text := EmptyString;
              scroll_offset := (-60)%Z; screen_height := 800%Z |} in
  (scroll_offset (on_wheel 5 (students_data (loaded class_sheet)) u) ≤ 0)%Z.
Proof.
  intros u.
  destruct (wheel_keeps_scroll_in_range 5 (students_data (loaded class_sheet)) u)
    as [H _].
  destruct H as [H _]; [now right|exact H].
Defined.

(** X5. With [n] students and [40 * n >= SCREEN_HEIGHT - 480] (eight or more
    students in the 800 pixel window) the row of the last student is not
    drawn, at the initial offset and at every offset a wheel event leaves. *)
Theorem last_row_is_never_drawn (button n : nat) (height off : Z) :
  0 < n → (height - 480 ≤ 40 * Z.of_nat n)%Z →
  row_drawn height 0 (n - 1) = false
  ∧ row_drawn height (wheel_scroll button n height off) (n - 1) = false.
Proof.
  intros Hn Hh. unfold row_drawn, row_y, list_top, list_bottom, line_height,
    wheel_scroll.
  split; apply andb_false_iff; right; apply Z.ltb_ge; lia.
Qed.

Lemma last_row_is_never_drawn_witness :
  row_drawn 800 (wheel_scroll 5 10 800 (-60)) (10 - 1) = false.
Proof.
  destruct (last_row_is_never_drawn 5 10 800 (-60)) as [_ H]; [lia|lia|exact H].
Defined.

Section MessageLine.
Context {S E : Type}.
Implicit Type st : system S E.

Lemma draw_message_iter st k :
  msg (Nat.iter k (λ s, snd (draw_message s)) st)
  = {| text := text (msg st); color := color (msg st);
       timer := timer (msg st) - k |}.
Proof.
  induction k as [|k IH].
  - unfold Nat.iter; cbn [nat_rect]. rewrite Nat.sub_0_r.
    destruct (msg st); reflexivity.
  - rewrite Nat.iter_succ. unfold draw_message at 1.
    destruct (decide (0 < timer (msg (Nat.iter k (λ s, snd (draw_message s)) st))))
      as [Hpos|Hzero]; cbn [snd with_message msg]; rewrite IH in *;
      cbn [text color timer] in *; f_equal; lia.
Qed.

End MessageLine.

(** X6. A message set by [show_message] is drawn in each of the next 180
    frames and in no frame after them, as long as no other message is set. *)
Theorem message_is_drawn_180_frames {S E : Type} (txt : string) (c : colour)
    (st : system S E) (k : nat) :
  fst (draw_message
         (Nat.iter k (λ s, snd (draw_message s)) (show_message txt c st)))
  = if decide (k < 180) then Some (txt, c) else None.
Proof.
  unfold draw_message at 1. rewrite draw_message_iter.
  cbn [show_message msg text color timer].
  destruct (decide (0 < 180 - k)), (decide (k < 180)); cbn; try reflexivity; lia.
Qed.

(** ** More facts about marking *)

Section MarkingCalls.
Context {S E : Type} `{!Worksheet S}.
Implicit Type st : system S E.

Lemma get_current_lecture_session clock l :
  get_current_lecture clock = Some l → l ∈ session_ids.
Proof.
  unfold get_current_lecture, session_ids. generalize (strftime_HM clock).
  intros now. induction lectures as [|[l' [s e]] items IH];
    cbn [first_lecture map fst]; [discriminate|].
  destruct (PyStr.le s now && PyStr.le now e).
  - intros [= ->]. apply list_elem_of_here.
  - intros H. apply list_elem_of_further. auto.
Qed.


Lemma write_through_outcome prn l who st :
  fst (write_through prn l who st) = Marked
  ∨ fst (write_through prn l who st) = NotInSheet
  ∨ ∃ e, fst (write_through prn l who st) = MarkError e.
Proof.
  unfold write_through.
  destruct (ws_find prn (sheet st)) as [[[c1|]|e1] sh1]; cbn; eauto.
  destruct (ws_find l sh1) as [[[c2|]|e2] sh2]; cbn; eauto.
  destruct (ws_update_cell (row c1) (col c2) "Present" sh2) as [[[]|e3] sh3];
    cbn; eauto.
Qed.

End MarkingCalls.



(** ** More facts about a frame of probes *)

Section BatchExtras.
Context {S E : Type} `{!Worksheet S} `{!FaceLib E}.
Implicit Type st : system S E.

Lemma mark_attendance_returns clock prn st :
  complete_records (students_data st) →
  ∀ e, fst (mark_attendance clock prn st) ≠ Uncaught e.
Proof.
  intros Hc e. unfold mark_attendance.
  destruct (get_current_lecture clock) as [l|] eqn:Hl; [|done].
  destruct (decide (PyStr.strip prn = EmptyString)); [done|].
  destruct (students_data st !! PyStr.strip prn) as [who|] eqn:Hw; [|done].
  destruct (Hc _ _ Hw l (get_current_lecture_session clock l Hl)) as [v ->].
  destruct (is_present v); [done|].
  destruct (write_through_outcome (PyStr.strip prn) l who st)
    as [Ho|[Ho|[e' Ho]]]; rewrite Ho; done.
Qed.

Lemma mark_matches_returns clock matches st :
  complete_records (students_data st) →
  fst (mark_matches clock matches st) = None.
Proof.
  revert st. induction matches as [|prn matches IH]; intros st Hc;
    cbn [mark_matches]; [reflexivity|].
  pose proof (mark_attendance_returns clock prn st Hc) as Hr.
  pose proof (mark_attendance_complete clock prn st Hc) as Hc'.
  destruct (mark_attendance clock prn st) as [o st1]. cbn [fst snd] in *.
  destruct o; try (apply IH; exact Hc'). now specialize (Hr e).
Qed.




End BatchExtras.

(** X8. While every student of the directory has an entry for each lecture,
    no exception leaves [mark_attendance], and the loop that marks the
    matches of a probe runs to its end. *)
Theorem marking_never_raises {S E : Type} `{!Worksheet S}
    (clock : datetime) (st : system S E) :
  complete_records (students_data st) →
  (∀ prn e, fst (mark_attendance clock prn st) ≠ Uncaught e)
  ∧ (∀ matches, fst (mark_matches clock matches st) = None).
Proof.
  intros Hc. split.
  - intros prn. now apply mark_attendance_returns.
  - intros matches. now apply mark_matches_returns.
Qed.

Lemma marking_never_raises_witness :
  fst (mark_matches (at_time 8 30) ["A1"; "A2"; "A9"] (loaded class_sheet))
  = None.
Proof.
  destruct (marking_never_raises (at_time 8 30) (loaded class_sheet)) as [_ H].
  - apply (setup_complete (start class_sheet ∅ [] false)).
  - apply H.
Defined.



Section WriteBound.
Context {S E : Type} `{!Worksheet S}.
Implicit Type st : system S E.






End WriteBound.


(** ** More facts about loading *)

Section Comprehension.

Lemma comprehension_miss (g : nat → value) (l : list nat)
    (d : gmap string value) (k : string) :
  k ∉ map lecture_key l →
  foldl (λ d i, <[lecture_key i := g i]> d) d l !! k = d !! k.
Proof.
  revert d. induction l as [|i l IH]; intros d Hk; cbn [foldl map] in *;
    [reflexivity|].
  apply not_elem_of_cons in Hk as [Hne Hk].
  rewrite IH by assumption. now apply lookup_insert_ne.
Qed.

Lemma comprehension_hit (g : nat → value) (l : list nat)
    (d : gmap string value) (i : nat) :
  NoDup (map lecture_key l) → i ∈ l →
  foldl (λ d i, <[lecture_key i := g i]> d) d l !! lecture_key i = Some (g i).
Proof.
  revert d. induction l as [|j l IH]; intros d Hnd Hi; cbn [foldl map] in *.
  - apply elem_of_nil in Hi. contradiction.
  - apply NoDup_cons in Hnd as [Hj Hnd].
    apply elem_of_cons in Hi as [->|Hi].
    + rewrite comprehension_miss by assumption. apply lookup_insert_eq.
    + now apply IH.
Qed.

Lemma lecture_keys_NoDup : NoDup (map lecture_key lecture_range).
Proof.
  apply (bool_decide_unpack (NoDup (map lecture_key lecture_range))).
  vm_compute. reflexivity.
Qed.

Lemma comprehension_exact (g : nat → value) :
  exact_attendance (foldl (λ d i, <[lecture_key i := g i]> d) ∅ lecture_range).
Proof.
  intros l. rewrite <- lecture_keys. split.
  - intros Hs. destruct (decide (l ∈ map lecture_key lecture_range)) as [|Hn];
      [assumption|].
    rewrite comprehension_miss, lookup_empty in Hs by assumption.
    destruct Hs; discriminate.
  - intros Hl. apply comprehension_lookup. now left.
Qed.

End Comprehension.

(** X11. The attendance dict that [update_attendance_from_sheet] builds from
    a record has the eight lecture keys and no other key, whatever columns the
    record has; the entry of a lecture is the record's cell of that name, and
    ['Absent'] when the record has no such column. *)
Theorem sheet_attendance_entries (r : record) :
  exact_attendance (sheet_attendance r)
  ∧ ∀ i, i ∈ lecture_range →
      sheet_attendance r !! lecture_key i
      = Some (default (VStr "Absent") (r !! lecture_key i)).
Proof.
  split.
  - apply (comprehension_exact
             (λ i, default (VStr "Absent") (r !! lecture_key i))).
  - intros i Hi. unfold sheet_attendance.
    apply (comprehension_hit
             (λ i, default (VStr "Absent") (r !! lecture_key i)));
      [apply lecture_keys_NoDup|exact Hi].
Qed.

Lemma sheet_attendance_entries_witness :
  sheet_attendance (Grid.row_record header
                      ["A2"; "Bob"; "Present"; ""; ""; ""; ""; ""; ""; ""])
    !! lecture_key 1 = Some (VStr "Present").
Proof.
  destruct (sheet_attendance_entries
              (Grid.row_record header
                 ["A2"; "Bob"; "Present"; ""; ""; ""; ""; ""; ""; ""]))
    as [_ H].
  rewrite (H 1); [vm_compute; reflexivity|].
  apply list_elem_of_here.
Defined.

Section LastWins.

Lemma load_records_lookup mk records (data : roster) prn :
  Forall has_fields records →
  fst (load_records mk records data) !! prn
  = match last_built mk prn records with
    | Some s => Some s
    | None => data !! prn
    end.
Proof.
  intros Hall. revert data.
  induction Hall as [|r records [[p Hp] [nm Hnm]] _ IH]; intros data;
    cbn [load_records last_built]; [reflexivity|].
  rewrite Hp, Hnm, IH. unfold built. rewrite Hp, Hnm.
  destruct (last_built mk prn records) as [s|]; [reflexivity|].
  destruct (decide (py_str p = prn)) as [<-|Hne].
  - apply lookup_insert_eq.
  - now apply lookup_insert_ne.
Qed.

End LastWins.

(** X12. When every record carries the PRN and the name field, the student
    stored under a PRN after loading is the one built from the last record
    with that PRN; a PRN that no record carries keeps what the dict held
    before. *)
Theorem load_records_last_wins (mk : record → gmap string value)
    (records : list record) (data : roster) (prn : string) :
  Forall has_fields records →
  fst (load_records mk records data) !! prn
  = match last_built mk prn records with
    | Some s => Some s
    | None => data !! prn
    end.
Proof. apply load_records_lookup. Qed.

Lemma load_records_last_wins_witness :
  let first := {["PRN" := VStr "A1"; "RName" := VStr "Alice"]} : record in
  let second := {["PRN" := VStr "A1"; "RName" := VStr "Alicia"]} : record in
  name <$> (fst (load_records sheet_attendance [first; second] ∅) !! "A1")
  = Some (VStr "Alicia").
Proof.
  intros first second.
  rewrite (load_records_last_wins sheet_attendance [first; second] ∅ "A1").
  - vm_compute. reflexivity.
  - repeat constructor; vm_compute; eauto.
Defined.

(** ** Facts about the keys of the attendance dicts *)

Section Exact.
Context {S E : Type} `{!Worksheet S} `{!FaceLib E}.
Implicit Type st : system S E.

Lemma exact_records_empty : exact_records ∅.
Proof. intros prn who Hwho. rewrite lookup_empty in Hwho. discriminate. Qed.

Lemma exact_records_insert prn who (data : roster) :
  exact_attendance (attendance who) → exact_records data →
  exact_records (<[prn := who]> data).
Proof.
  intros Hwho Hdata q who' Hq.
  destruct (decide (prn = q)) as [->|Hne].
  - rewrite lookup_insert_eq in Hq. now injection Hq as <-.
  - rewrite lookup_insert_ne in Hq by assumption. eapply Hdata; eauto.
Qed.

Lemma load_records_exact mk records (data : roster) :
  (∀ r, exact_attendance (mk r)) → exact_records data →
  exact_records (fst (load_records mk records data)).
Proof.
  intros Hmk. revert data.
  induction records as [|r records IH]; intros data Hdata; cbn [load_records].
  - exact Hdata.
  - destruct (r !! "PRN") as [p|]; [|exact Hdata].
    destruct (r !! "RName") as [nm|]; [|exact Hdata].
    apply IH. apply exact_records_insert; [apply Hmk|exact Hdata].
Qed.

Lemma load_records_built mk records (data : roster) prn who :
  fst (load_records mk records data) !! prn = Some who →
  data !! prn = Some who ∨ ∃ r, r ∈ records ∧ attendance who = mk r.
Proof.
  revert data. induction records as [|r records IH]; intros data;
    cbn [load_records]; [now left|].
  destruct (r !! "PRN") as [p|]; [|now left].
  destruct (r !! "RName") as [nm|]; [|now left].
  intros Hl. destruct (IH _ Hl) as [Hd|(r' & Hr' & Ha)].
  - destruct (decide (py_str p = prn)) as [<-|Hne].
    + rewrite lookup_insert_eq in Hd. injection Hd as <-.
      right. exists r. split; [apply list_elem_of_here|reflexivity].
    + rewrite lookup_insert_ne in Hd by assumption. now left.
  - right. exists r'. split; [now apply list_elem_of_further|exact Ha].
Qed.

Lemma refresh_exact st :
  exact_records (students_data st) →
  exact_records (students_data (snd (update_attendance_from_sheet st))).
Proof.
  intros Hst.
  destruct (ws_get_all_records (sheet st)) as [[records|e] sh] eqn:Hr.
  - destruct (refresh_ok st records sh Hr) as [-> _].
    apply load_records_exact; [|apply exact_records_empty].
    intros r. unfold sheet_attendance.
    apply (comprehension_exact
             (λ i, default (VStr "Absent") (r !! lecture_key i))).
  - destruct (refresh_raise st e sh Hr) as [_ ->]. exact Hst.
Qed.

Lemma setup_exact st :
  exact_records (students_data (snd (setup_student_data st))).
Proof.
  unfold setup_student_data. cbn.
  destruct (ws_get_all_records (sheet st)) as [[records|e] sh] eqn:Hr; cbn.
  2: { apply exact_records_empty. }
  assert (Hc : exact_records (fst (load_records absent_attendance records ∅))).
  { apply load_records_exact; [|apply exact_records_empty].
    intros r. apply (comprehension_exact (λ _, VStr "Absent")). }
  destruct (load_records absent_attendance records ∅) as [d [e|]];
    cbn [fst] in Hc; cbn [snd].
  - cbn. exact Hc.
  - apply refresh_exact. cbn. exact Hc.
Qed.

Lemma mark_attendance_exact clock prn st :
  exact_records (students_data st) →
  exact_records (students_data (snd (mark_attendance clock prn st))).
Proof.
  intros Hst.
  destruct (mark_attendance_spec clock prn st)
    as (calls & _ & _ & [(_ & l & who & status & Hl & _ & Hwho & _ & _ & Hstep)
                        |(_ & Hdata & _)]).
  2: { now rewrite Hdata. }
  destruct Hstep as (r & c & _ & ->). unfold set_present.
  apply exact_records_insert; [|exact Hst].
  intros k. cbn. rewrite lookup_insert_is_Some.
  pose proof (Hst _ _ Hwho k) as Hk.
  pose proof (get_current_lecture_session clock l Hl) as Hin.
  split.
  - intros [<-|[_ Hs]]; [exact Hin|now apply Hk].
  - intros Hs. destruct (decide (l = k)); [now left|right].
    split; [assumption|now apply Hk].
Qed.

Lemma match_faces_exact clock probes st :
  exact_records (students_data st) →
  exact_records (students_data (snd (match_faces clock probes st))).
Proof.
  apply (match_faces_keeps (λ st', exact_records (students_data st'))).
  intros c p st'. apply mark_attendance_exact.
Qed.

End Exact.

(** X13. No operation leaves a stray key in an attendance dict: after
    loading, and from then on through refreshing, marking by PRN and
    processing a frame of probes, the keys of every student's attendance are
    exactly the eight lectures of the schedule. *)
Theorem exact_records_preserved {S E : Type} `{!Worksheet S} `{!FaceLib E}
    (st : system S E) :
  exact_records (students_data (snd (setup_student_data st)))
  ∧ (exact_records (students_data st) →
     exact_records (students_data (snd (update_attendance_from_sheet st)))
     ∧ (∀ clock prn,
          exact_records (students_data (snd (mark_attendance clock prn st))))
     ∧ (∀ clock cam probes,
          exact_records
            (students_data (process_face_recognition clock cam probes st)))).
Proof.
  split; [apply setup_exact|]. intros Hst.
  split; [now apply refresh_exact|]. split.
  - intros clock prn. now apply mark_attendance_exact.
  - intros clock cam probes.
    destruct (process_students clock cam probes st) as [-> | ->];
      [now apply match_faces_exact|exact Hst].
Qed.

Lemma exact_records_preserved_witness :
  exact_records
    (students_data (snd (mark_attendance (at_time 8 30) "A1" (loaded class_sheet)))).
Proof.
  destruct (exact_records_preserved (loaded class_sheet)) as [_ H].
  destruct H as (_ & Hm & _).
  - apply (setup_exact (start class_sheet ∅ [] false)).
  - apply Hm.
Defined.

Section Shown.
Context {S E : Type} `{!Worksheet S}.
Implicit Type st : system S E.

Lemma no_lecture_is_no_session : "No Active Lecture" ∉ session_ids.
Proof.
  apply (bool_decide_unpack ("No Active Lecture" ∉ session_ids)).
  vm_compute. reflexivity.
Qed.

End Shown.

(** X14. What the list shows follows the marks: after a call that ends in
    [Marked] the row of that student shows ['Present'] in the colour for
    present during the same lecture; and outside the lecture windows every
    row shows ['Absent'] in the colour for absent, whatever the entries
    hold. *)
Theorem shown_status_follows_marks {S E : Type} `{!Worksheet S}
    (clock : datetime) (prn : string) (st : system S E) :
  (fst (mark_attendance clock prn st) = Marked →
   ∃ who,
     students_data (snd (mark_attendance clock prn st)) !! PyStr.strip prn
     = Some who
     ∧ shown_status clock who = VStr "Present"
     ∧ shown_colour (shown_status clock who) = ColPresent)
  ∧ (get_current_lecture clock = None →
     exact_records (students_data st) →
     ∀ q who, students_data st !! q = Some who →
       shown_status clock who = VStr "Absent"
       ∧ shown_colour (shown_status clock who) = ColAbsent).
Proof.
  split.
  - intros Hm.
    destruct (mark_attendance_spec clock prn st)
      as (calls & _ & _ & [(_ & l & who & status & Hl & _ & _ & _ & _ & Hstep)
                          |(Hne & _)]); [|contradiction].
    destruct Hstep as (r & c & _ & ->). eexists.
    split; [apply set_present_lookup|].
    unfold shown_status, shown_lecture. rewrite Hl. cbn.
    rewrite lookup_insert_eq. split; reflexivity.
  - intros Hl Hex q who Hq. unfold shown_status, shown_lecture. rewrite Hl.
    cbn [default].
    destruct (attendance who !! "No Active Lecture") as [v|] eqn:Hv.
    + exfalso. apply no_lecture_is_no_session.
      apply (Hex q who Hq). eauto.
    + split; reflexivity.
Qed.

Lemma shown_status_follows_marks_witness :
  ∃ who, students_data (loaded class_sheet) !! "A2" = Some who
         ∧ attendance who !! "Lecture1" = Some (VStr "Present")
         ∧ shown_status (at_time 13 0) who = VStr "Absent".
Proof.
  destruct (students_data (loaded class_sheet) !! "A2") as [who|] eqn:Hq;
    [|vm_compute in Hq; discriminate].
  exists who. split; [reflexivity|]. split.
  - vm_compute in Hq. injection Hq as <-. vm_compute. reflexivity.
  - destruct (shown_status_follows_marks (at_time 13 0) "A1"
                (loaded class_sheet)) as [_ H].
    apply (H ltac:(vm_compute; reflexivity)
             (setup_exact (start class_sheet ∅ [] false)) "A2" who Hq).
Defined.

(** ** Facts about [setup_student_data] *)

Section Setup.
Context {S E : Type} `{!Worksheet S}.
Implicit Type st : system S E.

Lemma setup_second_read st records sh1 :
  ws_get_all_records (sheet st) = (Ok records, sh1) →
  Forall has_fields records →
  ∃ st1,
    sheet st1 = sh1
    ∧ students_data st1 = fst (load_records absent_attendance records ∅)
    ∧ setup_student_data st = (Ok (), snd (update_attendance_from_sheet st1)).
Proof.
  intros Hr Hall. unfold setup_student_data. cbn. rewrite Hr. cbn.
  destruct (load_records_all absent_attendance records ∅ Hall) as (d & Hd & _).
  rewrite Hd. eexists. split; [|split; [|reflexivity]]; reflexivity.
Qed.

End Setup.

(** X15. [setup_student_data] reads the records twice.  When the first read
    gives records that all carry the PRN and the name field, it returns
    normally whatever the second read does: if the second read raises, the
    directory is the one of the first read, with every entry ['Absent']; if
    it returns, the directory is built from the second read alone. *)
Theorem setup_reads_twice {S E : Type} `{!Worksheet S} (st : system S E)
    (records : list record) (sh1 : S) :
  ws_get_all_records (sheet st) = (Ok records, sh1) →
  Forall has_fields records →
  fst (setup_student_data st) = Ok ()
  ∧ (∀ e sh2,
       ws_get_all_records sh1 = (Raise e, sh2) →
       students_data (snd (setup_student_data st))
       = fst (load_records absent_attendance records ∅)
       ∧ ∀ prn who i,
           students_data (snd (setup_student_data st)) !! prn = Some who →
           i ∈ lecture_range →
           attendance who !! lecture_key i = Some (VStr "Absent"))
  ∧ (∀ records2 sh2,
       ws_get_all_records sh1 = (Ok records2, sh2) →
       students_data (snd (setup_student_data st))
       = fst (load_records sheet_attendance records2 ∅)).
Proof.
  intros Hr Hall.
  destruct (setup_second_read st records sh1 Hr Hall) as (st1 & Hs & Hd & ->).
  cbn [fst snd]. split; [reflexivity|]. split.
  - intros e sh2 H2. rewrite <- Hs in H2.
    destruct (refresh_raise st1 e sh2 H2) as [_ ->]. rewrite Hd.
    split; [reflexivity|]. intros prn who i Hw Hi.
    destruct (load_records_built _ _ _ _ _ Hw) as [He|(r & _ & ->)].
    + rewrite lookup_empty in He. discriminate.
    + unfold absent_attendance.
      apply (comprehension_hit (λ _, VStr "Absent"));
        [apply lecture_keys_NoDup|exact Hi].
  - intros records2 sh2 H2. rewrite <- Hs in H2.
    now destruct (refresh_ok st1 records2 sh2 H2) as [-> _].
Qed.

Lemma setup_reads_twice_witness :
  let g := {| Grid.cells := Grid.cells class_sheet;
              Grid.outages := [false; true] |} in
  ∃ who, students_data (snd (setup_student_data (start g ∅ [] false))) !! "A2"
         = Some who
         ∧ attendance who !! lecture_key 1 = Some (VStr "Absent").
Proof.
  intros g.
  destruct (Grid.get_all_records g) as [[records|e] sh] eqn:Hr;
    [|vm_compute in Hr; discriminate].
  destruct (setup_reads_twice (start g ∅ [] false) records sh) as (_ & H & _).
  - exact Hr.
  - vm_compute in Hr. injection Hr as <- _.
    repeat constructor; vm_compute; eauto.
  - destruct (H (LibraryError "APIError")
                {| Grid.cells := Grid.cells class_sheet; Grid.outages := [] |})
      as [_ Habs].
    { vm_compute in Hr. injection Hr as _ <-. vm_compute. reflexivity. }
    destruct (students_data (snd (setup_student_data (start g ∅ [] false)))
              !! "A2") as [who|] eqn:Hw; [|vm_compute in Hw; discriminate].
    exists who. split; [reflexivity|].
    apply (Habs "A2" who 1 Hw). apply list_elem_of_here.
Defined.

(** ** Facts about switching face recognition *)

Section Camera.
Context {S E : Type} `{!Worksheet S} `{!FaceLib E}.
Implicit Type st : system S E.

Lemma toggle_encodings cam st :
  face_encodings (toggle_face_recognition cam st) = face_encodings st.
Proof.
  unfold toggle_face_recognition.
  destruct (negb (face_recognition_active st)); [|done].
  destruct (decide (length (face_encodings st) = 0)); [done|].
  destruct cam; done.
Qed.

Lemma toggle_on cam st :
  face_recognition_active st = false →
  face_recognition_active (toggle_face_recognition cam st) = true →
  cam = true ∧ face_encodings st ≠ [].
Proof.
  intros Hoff. unfold toggle_face_recognition. rewrite Hoff. cbn [negb].
  destruct (decide (length (face_encodings st) = 0)) as [Hz|Hnz].
  - cbn. congruence.
  - destruct cam; cbn; [|congruence]. intros _. split; [reflexivity|].
    intros Hnil. apply Hnz. now rewrite Hnil.
Qed.

Lemma toggle_has_faces cam st :
  camera_has_faces st → camera_has_faces (toggle_face_recognition cam st).
Proof.
  intros Hinv Hact. rewrite toggle_encodings.
  destruct (face_recognition_active st) eqn:Ha; [now apply Hinv|].
  now destruct (toggle_on cam st Ha Hact).
Qed.

Lemma process_has_faces clock cam probes st :
  camera_has_faces st →
  camera_has_faces (process_face_recognition clock cam probes st).
Proof.
  intros Hinv. unfold process_face_recognition.
  destruct (face_recognition_active st) eqn:Ha; cbn [negb]; [|exact Hinv].
  pose proof (match_faces_same_setup clock probes st) as [Henc Hact].
  destruct (match_faces clock probes st) as [[e|] st1]; cbn [snd] in *.
  - apply toggle_has_faces. intros _. cbn. rewrite Henc. now apply Hinv.
  - intros _. rewrite Henc. now apply Hinv.
Qed.

End Camera.

(** X16. Face recognition is on only while there are known encodings:
    [toggle_face_recognition] switches it on only when the camera opened and
    the set of known encodings is not empty, always switches it off when it
    was on, never changes the known encodings, and the property is kept by
    toggling, by processing a frame and by marking. *)
Theorem face_recognition_needs_encodings {S E : Type} `{!Worksheet S}
    `{!FaceLib E} (cam : bool) (st : system S E) :
  (face_recognition_active st = false →
   face_recognition_active (toggle_face_recognition cam st) = true →
   cam = true ∧ face_encodings st ≠ [])
  ∧ (face_recognition_active st = true →
     face_recognition_active (toggle_face_recognition cam st) = false)
  ∧ face_encodings (toggle_face_recognition cam st) = face_encodings st
  ∧ (camera_has_faces st →
     camera_has_faces (toggle_face_recognition cam st)
     ∧ (∀ clock probes,
          camera_has_faces (process_face_recognition clock cam probes st))
     ∧ (∀ clock prn,
          camera_has_faces (snd (mark_attendance clock prn st)))).
Proof.
  split; [apply toggle_on|]. split; [intros Ha; now apply toggle_active|].
  split; [apply toggle_encodings|]. intros Hinv.
  split; [now apply toggle_has_faces|]. split.
  - intros clock probes. now apply process_has_faces.
  - intros clock prn Hact.
    destruct (mark_attendance_same_setup clock prn st) as [Henc Ha].
    rewrite Henc. apply Hinv. congruence.
Qed.

Lemma face_recognition_needs_encodings_witness :
  face_recognition_active
    (toggle_face_recognition true (start class_sheet ∅ [] false)) = false.
Proof.
  destruct (face_recognition_needs_encodings true
              (start class_sheet ∅ ([] : list (string * Vec.t)) false))
    as (Hon & _).
  apply not_true_is_false. intros Hact.
  destruct (Hon eq_refl Hact) as [_ Hne]. now apply Hne.
Defined.

(** ** Facts about the schedule *)

Section Schedule.

Local Ltac pick H :=
  repeat (apply elem_of_cons in H as [H|H]);
  [..|apply elem_of_nil in H; contradiction].

(** No two windows of the schedule contain the same time of day. *)
Lemma windows_disjoint now l1 w1 l2 w2 :
  (l1, w1) ∈ lecture_times → (l2, w2) ∈ lecture_times →
  in_window w1 now = true → in_window w2 now = true → l1 = l2.
Proof.
  intros H1 H2 Hw1 Hw2. unfold lecture_times in H1, H2.
  pick H1; injection H1 as -> ->; pick H2; injection H2 as -> ->;
    try reflexivity; exfalso;
    unfold in_window, minutes_of_day, at_time in Hw1, Hw2;
    cbn [fst snd hour minute] in Hw1, Hw2;
    apply andb_true_iff in Hw1 as [Ha Hb];
    apply andb_true_iff in Hw2 as [Hc Hd];
    apply Nat.leb_le in Ha, Hb, Hc, Hd; lia.
Qed.

End Schedule.

(** X17. At any time of day at most one lecture window contains the time, so
    the order of the table plays no part: [get_current_lecture] returns a
    lecture exactly when the time lies in that lecture's window. *)
Theorem one_lecture_at_a_time (now : datetime) (l : string) :
  valid_time now →
  (get_current_lecture now = Some l
   ↔ ∃ w, (l, w) ∈ lecture_times ∧ in_window w now = true).
Proof.
  intros Hnow. rewrite get_current_lecture_numeric by assumption.
  unfold current_session_numeric. split.
  - intros H. destruct (first_window_Some _ _ _ H) as (pre & w & post & He & Hw & _).
    exists w. split; [|exact Hw]. rewrite He.
    apply elem_of_app. right. apply list_elem_of_here.
  - intros (w & Hin & Hw).
    destruct (first_window lecture_times now) as [l'|] eqn:Hf.
    + destruct (first_window_Some _ _ _ Hf) as (pre & w' & post & He & Hw' & _).
      f_equal. apply (windows_disjoint now l' w' l w); try assumption.
      rewrite He. apply elem_of_app. right. apply list_elem_of_here.
    + pose proof (first_window_None _ _ Hf) as Hall.
      rewrite Forall_forall in Hall. specialize (Hall _ Hin). cbn in Hall.
      congruence.
Qed.

Lemma one_lecture_at_a_time_witness :
  get_current_lecture (at_time 16 0) = Some "Lecture6".
Proof.
  apply one_lecture_at_a_time; [unfold valid_time; cbn; lia|].
  exists (at_time 15 10, at_time 16 10). split; [|reflexivity].
  unfold lecture_times. do 5 apply list_elem_of_further. apply list_elem_of_here.
Defined.

(** ** Facts about enrolling faces *)

Section Enrol.
Context {S E : Type} `{!ImageLib E}.
Implicit Type st : system S E.

Lemma dict_set_keys {A} k (v : A) items x :
  x ∈ map fst (dict_set k v items) ↔ x = k ∨ x ∈ map fst items.
Proof.
  induction items as [|[k' v'] items IH]; cbn [dict_set map fst].
  - rewrite list_elem_of_singleton. split; [auto|].
    intros [Hx|Hx]; [exact Hx|]. apply elem_of_nil in Hx. contradiction.
  - destruct (decide (k' = k)) as [->|Hne]; cbn [map fst].
    + rewrite elem_of_cons. tauto.
    + rewrite !elem_of_cons, IH. tauto.
Qed.

Lemma dict_set_NoDup {A} k (v : A) items :
  NoDup (map fst items) → NoDup (map fst (dict_set k v items)).
Proof.
  induction items as [|[k' v'] items IH]; cbn [dict_set map fst]; intros Hnd.
  - apply NoDup_singleton.
  - apply NoDup_cons in Hnd as [Hk' Hnd].
    destruct (decide (k' = k)) as [->|Hne]; cbn [map fst].
    + apply NoDup_cons. auto.
    + apply NoDup_cons. split; [|auto].
      rewrite dict_set_keys. intros [Hx|Hx]; [contradiction|contradiction].
Qed.

Lemma add_face_encoding_spec prn path st :
  students_data (snd (add_face_encoding prn path st)) = students_data st
  ∧ history (snd (add_face_encoding prn path st)) = history st
  ∧ sheet (snd (add_face_encoding prn path st)) = sheet st
  ∧ face_recognition_active (snd (add_face_encoding prn path st))
    = face_recognition_active st
  ∧ (NoDup (map fst (face_encodings st)) →
     NoDup (map fst (face_encodings (snd (add_face_encoding prn path st)))))
  ∧ ∀ x, x ∈ map fst (face_encodings (snd (add_face_encoding prn path st)))
         ↔ x ∈ map fst (face_encodings st)
           ∨ (x = prn ∧ ∃ enc rest, encode_image path = Ok (enc :: rest)).
Proof.
  unfold add_face_encoding.
  destruct (encode_image path) as [[|enc rest]|e]; cbn.
  - repeat split; auto. intros [Hx|(_ & ? & ? & Hx)]; [exact Hx|discriminate].
  - repeat split; auto using dict_set_NoDup.
    + rewrite dict_set_keys. intros [Hx|Hx]; eauto.
    + rewrite dict_set_keys. intros [Hx|[Hx _]]; auto.
  - repeat split; auto. intros [Hx|(_ & ? & ? & Hx)]; [exact Hx|discriminate].
Qed.

Lemma add_images_spec files st :
  students_data (add_images files st) = students_data st
  ∧ history (add_images files st) = history st
  ∧ sheet (add_images files st) = sheet st
  ∧ face_recognition_active (add_images files st) = face_recognition_active st
  ∧ (NoDup (map fst (face_encodings st)) →
     NoDup (map fst (face_encodings (add_images files st))))
  ∧ ∀ x, x ∈ map fst (face_encodings (add_images files st))
         ↔ x ∈ map fst (face_encodings st)
           ∨ ∃ f, f ∈ files ∧ enrols f ∧ PyStrOps.before "." f = x.
Proof.
  revert st. induction files as [|f files IH]; intros st; cbn [add_images].
  - repeat split; auto. intros [Hx|(f & Hf & _)]; [exact Hx|].
    apply elem_of_nil in Hf. contradiction.
  - destruct (is_image f) eqn:Himg.
    + destruct (add_face_encoding_spec (PyStrOps.before "." f)
                  (PyStrOps.path_join "images" f) st)
        as (H1 & H2 & H3 & H4 & H5 & H6).
      destruct (IH (snd (add_face_encoding (PyStrOps.before "." f)
                           (PyStrOps.path_join "images" f) st)))
        as (I1 & I2 & I3 & I4 & I5 & I6).
      split; [congruence|]. split; [congruence|]. split; [congruence|].
      split; [congruence|]. split; [auto|].
      intros x. rewrite I6, H6. split.
      * intros [[Hx|[-> Henc]]|(f' & Hf' & He & Hb)].
        -- now left.
        -- right. exists f. split; [apply list_elem_of_here|].
           split; [split; assumption|reflexivity].
        -- right. exists f'. split; [now apply list_elem_of_further|auto].
      * intros [Hx|(f' & Hf' & He & Hb)]; [auto|].
        apply elem_of_cons in Hf' as [->|Hf'].
        -- left. right. split; [now symmetry|]. apply He.
        -- right. exists f'. auto.
    + destruct (IH st) as (I1 & I2 & I3 & I4 & I5 & I6).
      repeat split; auto.
      * rewrite I6. intros [Hx|(f' & Hf' & He & Hb)]; [auto|].
        right. exists f'. split; [now apply list_elem_of_further|auto].
      * rewrite I6. intros [Hx|(f' & Hf' & He & Hb)]; [auto|].
        apply elem_of_cons in Hf' as [->|Hf'].
        -- destruct He as [He _]. congruence.
        -- right. exists f'. auto.
Qed.

(** X18. After [setup_face_recognition] has gone through a directory listing,
    the known encodings have one entry per PRN, and a PRN is known exactly
    when some listed file with an image extension, whose part before the
    first dot is that PRN, could be loaded and showed a face.  Files that
    fail to encode are skipped without ending the loop, whatever was known
    before is forgotten, and the students, the worksheet and the record of
    worksheet calls are left as they were. *)
Theorem enrolled_faces files st :
  NoDup (map fst (face_encodings (setup_face_recognition (Ok files) st)))
  ∧ (∀ prn,
       prn ∈ map fst (face_encodings (setup_face_recognition (Ok files) st))
       ↔ ∃ f, f ∈ files ∧ enrols f ∧ PyStrOps.before "." f = prn)
  ∧ students_data (setup_face_recognition (Ok files) st) = students_data st
  ∧ sheet (setup_face_recognition (Ok files) st) = sheet st
  ∧ history (setup_face_recognition (Ok files) st) = history st.
Proof.
  unfold setup_face_recognition.
  destruct (add_images_spec files (with_encodings st []))
    as (H1 & H2 & H3 & _ & H5 & H6).
  split; [apply H5; cbn; apply NoDup_nil_2|].
  split.
  - intros prn. rewrite H6. cbn [with_encodings face_encodings map].
    split; [|auto]. intros [Hx|Hx]; [|exact Hx].
    apply elem_of_nil in Hx. contradiction.
  - rewrite H1, H2, H3. cbn. auto.
Qed.

End Enrol.
